(** * Prima provider: catchup resolution pipeline

    A shallow embedding of [resources/lib/providers/prima.py]
    (token cache, channel resolution, backward EPG scan, archive stream
    selection) and the properties of the catchup pipeline proved on it.

    Conventions of the embedding:
    - values decoded from JSON are the inductive type [value]; a Python
      [dict] is an association list read at its first binding of a key;
    - text is [string], holding the UTF-8 bytes of a Python [str]; a
      character is a byte that is not a continuation byte, with the
      continuation bytes that follow it;
    - [str.lower] and the decimal digits that [\d] and [int] accept come
      from the Unicode database: they are the two fields of the class
      [Unicode], over which the development is stated; the examples are
      ASCII text and are run with [ascii_unicode];
    - a naive [datetime] is the number of seconds between
      1970-01-01T00:00:00 and it in the proleptic Gregorian calendar, so
      that comparing two of them is comparing two integers;
    - an exception is the outcome [Raise]; [try ... except Exception] is
      [try_except];
    - the clock, the token file and the requests sent make up the [world]
      that the effectful functions thread. *)

From Stdlib Require Import ZArith List String Ascii Bool Lia.
Import ListNotations.
Local Open Scope Z_scope.

(* ================================================================== *)
(** ** Exceptions *)

Inductive outcome (A : Type) : Type :=
| Ret (a : A)
| Raise.
Arguments Ret {A} a.
Arguments Raise {A}.

Definition obind {A B : Type} (o : outcome A) (k : A -> outcome B) : outcome B :=
  match o with
  | Ret a => k a
  | Raise => Raise
  end.

Notation "x <-- o ;; k" := (obind o (fun x => k))
  (at level 61, o at next level, right associativity).

Definition try_except {A : Type} (body : outcome A) (handler : A) : A :=
  match body with
  | Ret a => a
  | Raise => handler
  end.

(* ================================================================== *)
(** ** Text *)

Definition lower_char (c : ascii) : ascii :=
  let n := N_of_ascii c in
  if ((65 <=? n) && (n <=? 90))%N then ascii_of_N (n + 32) else c.

(** [str.lower] on ASCII text. *)
Fixpoint ascii_lower (s : string) : string :=
  match s with
  | EmptyString => EmptyString
  | String c r => String (lower_char c) (ascii_lower r)
  end.

(** A continuation byte of UTF-8: [10xxxxxx]. *)
Definition is_continuation (c : ascii) : bool :=
  let n := N_of_ascii c in ((128 <=? n) && (n <? 192))%N.

(** The continuation bytes at the head of a text, and the text after
    them. *)
Fixpoint span_continuation (s : string) : string * string :=
  match s with
  | EmptyString => (EmptyString, EmptyString)
  | String c r =>
      if is_continuation c
      then (String c (fst (span_continuation r)), snd (span_continuation r))
      else (EmptyString, s)
  end.

(** The first character of a text and the text after it. *)
Definition uncons_char (s : string) : option (string * string) :=
  match s with
  | EmptyString => None
  | String c r => Some (String c (fst (span_continuation r)), snd (span_continuation r))
  end.

(** [len(s)] when it matters: the number of characters. *)
Fixpoint char_count (s : string) : nat :=
  match s with
  | EmptyString => O
  | String c r => if is_continuation c then char_count r else S (char_count r)
  end.

(** The value of an ASCII digit. *)
Definition digit_of (c : ascii) : option Z :=
  let n := N_of_ascii c in
  if ((48 <=? n) && (n <=? 57))%N then Some (Z.of_N n - 48) else None.

(** [sub in s] for two strings. *)
Fixpoint contains (sub s : string) : bool :=
  String.prefix sub s ||
  match s with
  | EmptyString => false
  | String _ r => contains sub r
  end.

(** [s[:n]]: the first [n] characters. *)
Fixpoint take_str (n : nat) (s : string) : string :=
  match s with
  | EmptyString => EmptyString
  | String c r =>
      if is_continuation c then String c (take_str n r)
      else
        match n with
        | O => EmptyString
        | S n' => String c (take_str n' r)
        end
  end.

(** [s.replace('_lq', '')]: every occurrence, left to right, without
    overlap. *)
Fixpoint replace_lq (s : string) : string :=
  match s with
  | String "_" (String "l" (String "q" r)) => replace_lq r
  | String c r => String c (replace_lq r)
  | EmptyString => EmptyString
  end.

(** What the code takes from the Unicode database through the library:
    [lower s] is [s.lower()]; [decimal_value c], for a text [c] of one
    character, is the value of [c] when it is a decimal digit, that is
    when [\d] matches it, and then what [int(c)] gives. *)
Class Unicode : Type := {
  lower : string -> string;
  decimal_value : string -> option Z
}.

(** The two functions as they are on ASCII text, where they agree with
    the Unicode database: [A]-[Z] are the letters [lower] changes and
    [0]-[9] the decimal digits.  It serves to run the examples, all of
    them ASCII text. *)
Definition ascii_unicode : Unicode :=
  {| lower := ascii_lower;
     decimal_value := fun c =>
       match c with
       | String x EmptyString => digit_of x
       | _ => None
       end |}.

Section Pipeline.

Context {U : Unicode}.

(* ================================================================== *)
(** ** Values decoded from JSON *)

#[warnings="-register-all"]
Inductive value : Type :=
| VNone
| VBool (b : bool)
| VInt (n : Z)
| VFloat (m e : Z)                       (* the binary float m * 2^e *)
| VStr (s : string)
| VList (l : list value)
| VDict (d : list (string * value)).

(** [bool(v)] *)
Definition truthy (v : value) : bool :=
  match v with
  | VNone => false
  | VBool b => b
  | VInt n => negb (n =? 0)
  | VFloat m _ => negb (m =? 0)
  | VStr s => negb (String.eqb s "")
  | VList l => match l with [] => false | _ => true end
  | VDict d => match d with [] => false | _ => true end
  end.

(** [a or b] *)
Definition py_or (a b : value) : value := if truthy a then a else b.

Fixpoint lookup (k : string) (d : list (string * value)) : option value :=
  match d with
  | [] => None
  | (k', v) :: r => if String.eqb k k' then Some v else lookup k r
  end.

(** [d.get(k, default)] on a dict *)
Definition dict_get (d : list (string * value)) (k : string) (default : value) : value :=
  match lookup k d with
  | Some v => v
  | None => default
  end.

(** [v.get(k, default)]: only a dict has [get]. *)
Definition py_get (v : value) (k : string) (default : value) : outcome value :=
  match v with
  | VDict d => Ret (dict_get d k default)
  | _ => Raise
  end.

Definition is_str (k : string) (v : value) : bool :=
  match v with
  | VStr s => String.eqb s k
  | _ => false
  end.

(** [k in v] for a string [k] *)
Definition py_in (k : string) (v : value) : outcome bool :=
  match v with
  | VDict d => Ret (match lookup k d with Some _ => true | None => false end)
  | VList l => Ret (existsb (is_str k) l)
  | VStr s => Ret (contains k s)
  | _ => Raise
  end.

(** [v[k]] for a string [k] *)
Definition subscript (v : value) (k : string) : outcome value :=
  match v with
  | VDict d => match lookup k d with Some x => Ret x | None => Raise end
  | _ => Raise
  end.

(** [v[0]]; the keys of a decoded dict are strings, never [0]. *)
Definition first_item (v : value) : outcome value :=
  match v with
  | VList (x :: _) => Ret x
  | VStr (String c _) => Ret (VStr (String c EmptyString))
  | _ => Raise
  end.

(** [len(v)] *)
Definition py_len (v : value) : outcome Z :=
  match v with
  | VStr s => Ret (Z.of_nat (String.length s))
  | VList l => Ret (Z.of_nat (List.length l))
  | VDict d => Ret (Z.of_nat (List.length d))
  | _ => Raise
  end.

(** The items a [for] loop over [v] visits. *)
Definition py_iter (v : value) : outcome (list value) :=
  match v with
  | VList l => Ret l
  | VDict d => Ret (map (fun kv => VStr (fst kv)) d)
  | VStr s => Ret (map (fun c => VStr (String c EmptyString)) (list_ascii_of_string s))
  | _ => Raise
  end.

(** [v[:n]] *)
Definition py_slice (n : nat) (v : value) : outcome value :=
  match v with
  | VStr s => Ret (VStr (take_str n s))
  | VList l => Ret (VList (firstn n l))
  | _ => Raise
  end.

(** [v > n] for an integer [n] *)
Definition py_gt (v : value) (n : Z) : outcome bool :=
  match v with
  | VInt a => Ret (n <? a)
  | VBool b => Ret (n <? (if b then 1 else 0))
  | VFloat m e => Ret (if 0 <=? e then n <? m * 2 ^ e else n * 2 ^ (- e) <? m)
  | _ => Raise
  end.

(* ================================================================== *)
(** ** Calendar arithmetic ([datetime]) *)

Definition is_leap (y : Z) : bool :=
  (y mod 4 =? 0) && (negb (y mod 100 =? 0) || (y mod 400 =? 0)).

Definition days_before_year (y : Z) : Z :=
  let y1 := y - 1 in y1 * 365 + y1 / 4 - y1 / 100 + y1 / 400.

Definition days_in_month (y m : Z) : Z :=
  if m =? 2 then (if is_leap y then 29 else 28)
  else if (m =? 4) || (m =? 6) || (m =? 9) || (m =? 11) then 30
  else 31.

(** Days of the year before the first of month [m], for a common year. *)
Definition DAYS_BEFORE_MONTH (m : Z) : Z :=
  nth (Z.to_nat m) [0; 0; 31; 59; 90; 120; 151; 181; 212; 243; 273; 304; 334] 0.

Definition days_before_month (y m : Z) : Z :=
  DAYS_BEFORE_MONTH m + (if (2 <? m) && is_leap y then 1 else 0).

(** Ordinal of a date, 0001-01-01 being day 1. *)
Definition ymd2ord (y m d : Z) : Z :=
  days_before_year y + days_before_month y m + d.

(** The date of an ordinal, by cycles of 400, 100, 4 and 1 years. *)
Definition ord2ymd (n0 : Z) : Z * Z * Z :=
  let n := n0 - 1 in
  let n400 := n / 146097 in
  let n := n mod 146097 in
  let n100 := n / 36524 in
  let n := n mod 36524 in
  let n4 := n / 1461 in
  let n := n mod 1461 in
  let n1 := n / 365 in
  let n := n mod 365 in
  let year := n400 * 400 + 1 + n100 * 100 + n4 * 4 + n1 in
  if (n1 =? 4) || (n100 =? 4) then (year - 1, 12, 31)
  else
    let leapyear := (n1 =? 3) && (negb (n4 =? 24) || (n100 =? 3)) in
    let month := Z.shiftr (n + 50) 5 in
    let preceding :=
      DAYS_BEFORE_MONTH month + (if (2 <? month) && leapyear then 1 else 0) in
    if n <? preceding then
      let month := month - 1 in
      let preceding :=
        preceding - (if (month =? 2) && leapyear then 29
                     else days_in_month 1 month) in
      (year, month, n - preceding + 1)
    else (year, month, n - preceding + 1).

(** Ordinal of 1970-01-01. *)
Definition EPOCH_ORD : Z := 719163.

(** The naive datetime [y-m-d hh:mi:ss]. *)
Definition mk_datetime (y m d hh mi ss : Z) : Z :=
  (ymd2ord y m d - EPOCH_ORD) * 86400 + hh * 3600 + mi * 60 + ss.

Definition DT_MIN : Z := mk_datetime 1 1 1 0 0 0.
Definition DT_MAX : Z := mk_datetime 9999 12 31 23 59 59.

Definition in_datetime_range (t : Z) : bool := (DT_MIN <=? t) && (t <=? DT_MAX).

(** [dt.utcfromtimestamp(ts)]: the years 1 to 9999 only. *)
Definition utcfromtimestamp (ts : Z) : outcome Z :=
  if in_datetime_range ts then Ret ts else Raise.

(** [t + td(seconds=s)] *)
Definition add_timedelta (t s : Z) : outcome Z :=
  if in_datetime_range (t + s) then Ret (t + s) else Raise.

Definition digit_char (n : Z) : ascii := ascii_of_N (Z.to_N (48 + n mod 10)).

Definition pad2 (n : Z) : string :=
  String (digit_char (n / 10)) (String (digit_char n) EmptyString).

Definition pad4 (n : Z) : string :=
  String (digit_char (n / 1000)) (String (digit_char (n / 100)) (pad2 n)).

(** [t.strftime('%Y-%m-%d')] *)
Definition strftime_date (t : Z) : string :=
  let '(y, m, d) := ord2ymd (t / 86400 + EPOCH_ORD) in
  (pad4 y ++ "-" ++ pad2 m ++ "-" ++ pad2 d)%string.

(* ================================================================== *)
(** ** [dt.strptime(s, '%Y-%m-%dT%H:%M:%S')]

    The format is turned into a regular expression, matched without
    regard to case at the start of the text, and the text must end where
    the match ends.  A field parser lists its matches in the order the
    regular expression tries its alternatives. *)

Definition parser (A : Type) : Type := string -> list (A * string).

Definition pbind {A B : Type} (p : parser A) (k : A -> parser B) : parser B :=
  fun s => flat_map (fun ar => k (fst ar) (snd ar)) (p s).

Definition pret {A : Type} (a : A) : parser A := fun s => [(a, s)].

Definition between (lo hi : Z) (d : Z) : bool := (lo <=? d) && (d <=? hi).

(** One ASCII digit accepted by [ok]: a digit written in the regular
    expression, or a class of digits such as [[0-5]]. *)
Definition one_digit (ok : Z -> bool) : parser Z :=
  fun s =>
    match s with
    | String c r =>
        match digit_of c with
        | Some d => if ok d then [(d, r)] else []
        | None => []
        end
    | EmptyString => []
    end.

(** [\d]: one decimal digit of any script. *)
Definition decimal_digit : parser Z :=
  fun s =>
    match uncons_char s with
    | Some (c, r) =>
        match decimal_value c with
        | Some d => [(d, r)]
        | None => []
        end
    | None => []
    end.

(** Two digits one after the other: the number they write. *)
Definition two_digits (p q : parser Z) : parser Z :=
  pbind p (fun a => pbind q (fun b => pret (10 * a + b))).

(** A space, then one digit accepted by [ok]. *)
Definition space_digit (ok : Z -> bool) : parser Z :=
  fun s =>
    match s with
    | String " " r => one_digit ok r
    | _ => []
    end.

(** Alternatives, tried from left to right. *)
Definition alt {A : Type} (p q : parser A) : parser A := fun s => (p s ++ q s)%list.

(** A literal character, matched without regard to case. *)
Definition literal (c : ascii) : parser unit :=
  fun s =>
    match s with
    | String x r => if Ascii.eqb (lower_char x) (lower_char c) then [(tt, r)] else []
    | EmptyString => []
    end.

(** [%Y]: [\d\d\d\d] *)
Definition field_Y : parser Z :=
  pbind (two_digits decimal_digit decimal_digit) (fun hi =>
  pbind (two_digits decimal_digit decimal_digit) (fun lo => pret (100 * hi + lo))).

(** [%m]: [1[0-2]|0[1-9]|[1-9]] *)
Definition field_m : parser Z :=
  alt (two_digits (one_digit (Z.eqb 1)) (one_digit (between 0 2)))
 (alt (two_digits (one_digit (Z.eqb 0)) (one_digit (between 1 9)))
      (one_digit (between 1 9))).

(** [%d]: [3[0-1]|[1-2]\d|0[1-9]|[1-9]| [1-9]] *)
Definition field_d : parser Z :=
  alt (two_digits (one_digit (Z.eqb 3)) (one_digit (between 0 1)))
 (alt (two_digits (one_digit (between 1 2)) decimal_digit)
 (alt (two_digits (one_digit (Z.eqb 0)) (one_digit (between 1 9)))
 (alt (one_digit (between 1 9))
      (space_digit (between 1 9))))).

(** [%H]: [2[0-3]|[0-1]\d|\d] *)
Definition field_H : parser Z :=
  alt (two_digits (one_digit (Z.eqb 2)) (one_digit (between 0 3)))
 (alt (two_digits (one_digit (between 0 1)) decimal_digit)
      decimal_digit).

(** [%M]: [[0-5]\d|\d] *)
Definition field_M : parser Z :=
  alt (two_digits (one_digit (between 0 5)) decimal_digit) decimal_digit.

(** [%S]: [6[0-1]|[0-5]\d|\d] *)
Definition field_S : parser Z :=
  alt (two_digits (one_digit (Z.eqb 6)) (one_digit (between 0 1)))
 (alt (two_digits (one_digit (between 0 5)) decimal_digit)
      decimal_digit).

Definition datetime_format : parser (Z * Z * Z * Z * Z * Z) :=
  pbind field_Y (fun y => pbind (literal "-") (fun _ =>
  pbind field_m (fun m => pbind (literal "-") (fun _ =>
  pbind field_d (fun d => pbind (literal "T") (fun _ =>
  pbind field_H (fun hh => pbind (literal ":") (fun _ =>
  pbind field_M (fun mi => pbind (literal ":") (fun _ =>
  pbind field_S (fun ss => pret (y, m, d, hh, mi, ss)))))))))))).

(** The constructor [datetime(y, m, d, hh, mi, ss)] refuses the year 0, a
    day the month does not have, and a second above 59. *)
Definition datetime_of_fields (f : Z * Z * Z * Z * Z * Z) : outcome Z :=
  let '(y, m, d, hh, mi, ss) := f in
  if (1 <=? y) && (d <=? days_in_month y m) && (ss <=? 59)
  then Ret (mk_datetime y m d hh mi ss)
  else Raise.

Definition strptime_str (s : string) : outcome Z :=
  match datetime_format s with
  | (f, EmptyString) :: _ => datetime_of_fields f
  | _ => Raise
  end.

(** [dt.strptime(v, ...)]: the first argument must be a [str]. *)
Definition strptime (v : value) : outcome Z :=
  match v with
  | VStr s => strptime_str s
  | _ => Raise
  end.

(* ================================================================== *)
(** ** The host, the world and the effectful functions *)

(** A call to one of the provider's endpoints, with what the caller puts
    into it. *)
Inductive request : Type :=
| SessionCreate (email password : string)
| ChannelList (token : value)
| ProgramBulkList (token channel_id : value) (date_str : string)
| Play (token play_id : value).

(** What the code reads from its surroundings and does not change. *)
Record host : Type := {
  prima_email : string;                     (* setting [prima_email], or '' *)
  prima_password : string;                  (* setting [prima_password], or '' *)
  utcoffset : Z -> Z;                       (* local zone of the host: seconds east of UTC at an instant *)
  writable : bool;                          (* the token file has a path and can be written *)
  respond : request -> Z -> option value;   (* decoded body; [None] when the call or the decoding raises *)
  latency : request -> Z -> Z               (* seconds a call takes *)
}.

Record world : Type := {
  clock : Z;                                (* [int(time.time())] *)
  token_file : option value;                (* decoded content of prima_token.json, when it can be read *)
  sent : list request                       (* requests made so far, oldest first *)
}.

Definition M (A : Type) : Type := world -> outcome A * world.

Definition ret {A : Type} (a : A) : M A := fun w => (Ret a, w).

Definition bind {A B : Type} (m : M A) (k : A -> M B) : M B :=
  fun w =>
    match m w with
    | (Ret a, w') => k a w'
    | (Raise, w') => (Raise, w')
    end.

Definition lift {A : Type} (o : outcome A) : M A := fun w => (o, w).

Notation "x <- m ;; k" := (bind m (fun x => k))
  (at level 61, m at next level, right associativity).

(** [int(time.time())] *)
Definition time_time : M Z := fun w => (Ret (clock w), w).

(** One HTTP exchange and the decoding of its body; the request is
    recorded and the clock moves on.  [None] stands for an exception,
    which every caller catches. *)
Definition http (h : host) (r : request) : M (option value) :=
  fun w =>
    (Ret (respond h r (clock w)),
     {| clock := clock w + latency h r (clock w);
        token_file := token_file w;
        sent := (sent w ++ [r])%list |}).

Definition of_response (r : option value) : outcome value :=
  match r with
  | Some v => Ret v
  | None => Raise
  end.

(** [save_token]: a failure to write is logged and dropped. *)
Definition save_token (h : host) (token_data : value) : M unit :=
  fun w =>
    (Ret tt,
     if writable h
     then {| clock := clock w; token_file := Some token_data; sent := sent w |}
     else w).

(** [load_token]: the logging line calls [data.get], so anything but a
    dict ends in the handler and [None] is returned. *)
Definition cached_record (w : world) : value :=
  match token_file w with
  | Some (VDict d) => VDict d
  | _ => VNone
  end.

Definition load_token : M value := fun w => (Ret (cached_record w), w).

(** The test of lines 110-111 on the cached record. *)
Definition cached_valid (cached : value) (now : Z) : outcome bool :=
  b1 <-- (if truthy cached then py_in "token" cached else Ret false) ;;
  b2 <-- (if b1 then py_in "valid_to" cached else Ret false) ;;
  if b2 then (v <-- subscript cached "valid_to" ;; py_gt v now) else Ret false.

Definition TOKEN_VALIDITY : Z := 7 * 60 * 60.

Definition token_record (token : value) (valid_to : Z) : value :=
  VDict [("token"%string, token); ("valid_to"%string, VInt valid_to)].

(** The [try] of [get_prima_token] from the decoded response on:
    [Some token] when line 139 finds the access token, which is then
    saved and returned; [None] when the login failed or an exception was
    caught. *)
Definition login_token (resp : option value) : option value :=
  try_except
    (data <-- of_response resp ;;
     b <-- py_in "accessToken" data ;;
     if b
     then (a <-- subscript data "accessToken" ;;
           v <-- subscript a "value" ;;
           Ret (Some v))
     else Ret None)
    None.

Definition get_prima_token (h : host) : M value :=
  cached <- load_token ;;
  now <- time_time ;;
  valid <- lift (cached_valid cached now) ;;
  if valid then lift (subscript cached "token")
  else
    if String.eqb (prima_email h) "" || String.eqb (prima_password h) ""
    then ret VNone
    else
      resp <- http h (SessionCreate (prima_email h) (prima_password h)) ;;
      match login_token resp with
      | Some token =>
          now' <- time_time ;;
          _ <- save_token h (token_record token (now' + TOKEN_VALIDITY)) ;;
          ret token
      | None => ret VNone
      end.

(* ================================================================== *)
(** ** Channel list and per-day listings *)

Definition is_dict (v : value) : bool :=
  match v with
  | VDict _ => true
  | _ => false
  end.

(** The [try] of [get_epg_channels] from the decoded response on.  The
    logging loop calls [ch.get] on every channel. *)
Definition channels_of_response (resp : option value) : value :=
  try_except
    (data <-- of_response resp ;;
     b1 <-- py_in "result" data ;;
     b2 <-- (if b1 then (r <-- subscript data "result" ;; py_in "data" r) else Ret false) ;;
     if b2
     then (r <-- subscript data "result" ;;
           channels <-- subscript r "data" ;;
           _ <-- py_len channels ;;
           chs <-- py_iter channels ;;
           if forallb is_dict chs then Ret channels else Raise)
     else Ret VNone)
    VNone.

Definition get_epg_channels (h : host) : M value :=
  token <- get_prima_token h ;;
  if negb (truthy token) then ret VNone
  else
    resp <- http h (ChannelList token) ;;
    ret (channels_of_response resp).

(** The [try] of [get_epg_program] from the decoded response on.  The
    logging line takes [len(programs)]. *)
Definition programs_of_response (resp : option value) : value :=
  try_except
    (data <-- of_response resp ;;
     b1 <-- py_in "result" data ;;
     b2 <-- (if b1 then (r <-- subscript data "result" ;; py_in "data" r) else Ret false) ;;
     b3 <-- (if b2
             then (r <-- subscript data "result" ;;
                   dd <-- subscript r "data" ;;
                   n <-- py_len dd ;;
                   Ret (0 <? n))
             else Ret false) ;;
     if b3
     then (r <-- subscript data "result" ;;
           dd <-- subscript r "data" ;;
           channel_data <-- first_item dd ;;
           b4 <-- py_in "items" channel_data ;;
           if b4
           then (programs <-- subscript channel_data "items" ;;
                 _ <-- py_len programs ;;
                 Ret programs)
           else Ret VNone)
     else Ret VNone)
    VNone.

(** [dt.now()]: the local naive time of the host. *)
Definition dt_now (h : host) : M Z :=
  fun w => (Ret (clock w + utcoffset h (clock w)), w).

Definition get_epg_program (h : host) (channel_id : value) (day_offset : Z) : M value :=
  token <- get_prima_token h ;;
  if negb (truthy token) then ret VNone
  else
    now <- dt_now h ;;
    match add_timedelta now (day_offset * 86400) with
    | Raise => ret VNone
    | Ret target_date =>
        resp <- http h (ProgramBulkList token channel_id (strftime_date target_date)) ;;
        ret (programs_of_response resp)
    end.

(* ================================================================== *)
(** ** [find_program_by_timestamp] *)

(** [range(start, stop, step)] for a negative step. *)
Definition range_down (start stop step : Z) : list Z :=
  let n := if stop <? start then (start - stop - 1) / (- step) + 1 else 0 in
  map (fun i => start + Z.of_nat i * step) (seq 0 (Z.to_nat n)).

(** What one turn of the loop over the programs does to the control
    flow. *)
Inductive step : Type :=
| Continue
| Return (v : value).

(** Lines 350-356: the instant compared with the programs' times. *)
Definition local_target (utc_timestamp : Z) : outcome Z :=
  utc_time <-- utcfromtimestamp utc_timestamp ;;
  add_timedelta utc_time (1 * 3600).

(** [program.get('programStartTime') or program.get('startTime') or ''] *)
Definition start_field (d : list (string * value)) : value :=
  py_or (py_or (dict_get d "programStartTime" VNone) (dict_get d "startTime" VNone))
        (VStr "").

(** [program.get('programEndTime') or program.get('endTime') or ''] *)
Definition end_field (d : list (string * value)) : value :=
  py_or (py_or (dict_get d "programEndTime" VNone) (dict_get d "endTime" VNone))
        (VStr "").

(** [s = s[:19]] followed by [dt.strptime(s, '%Y-%m-%dT%H:%M:%S')] *)
Definition parse_time (v : value) : outcome Z :=
  s <-- py_slice 19 v ;; strptime s.

(** Lines 396-404: what the search returns at a program that covers the
    instant. *)
Definition covering_result (d : list (string * value)) : value :=
  let is_playable := dict_get d "isPlayable" (VBool false) in
  let play_id := py_or (dict_get d "playId" VNone) (dict_get d "id" VNone) in
  if truthy is_playable && truthy play_id then play_id else VNone.

(** The body of the [try] of lines 373-404 for one item. *)
Definition check_program (program : value) (program_time : Z) : outcome step :=
  match program with
  | VDict d =>
      let start_str := start_field d in
      let end_str := end_field d in
      if negb (truthy start_str) || negb (truthy end_str) then Ret Continue
      else
        start_str <-- py_slice 19 start_str ;;
        end_str <-- py_slice 19 end_str ;;
        start_time <-- strptime start_str ;;
        end_time <-- strptime end_str ;;
        if (start_time <=? program_time) && (program_time <=? end_time)
        then Ret (Return (covering_result d))
        else Ret Continue
  | _ => Ret Continue
  end.

(** The loop of line 372 with its [try ... except: continue]. *)
Fixpoint scan_programs (programs : list value) (program_time : Z) : step :=
  match programs with
  | [] => Continue
  | program :: rest =>
      match try_except (check_program program program_time) Continue with
      | Return v => Return v
      | Continue => scan_programs rest program_time
      end
  end.

(** Lines 366-407 for one day's listing, outside any [try]: the two
    logging lines take [len(programs)] and, for the first day,
    [programs[0]]. *)
Definition scan_day (day_offset : Z) (programs : value) (program_time : Z) : outcome step :=
  _ <-- py_len programs ;;
  _ <-- (if day_offset =? 0 then first_item programs else Ret VNone) ;;
  items <-- py_iter programs ;;
  Ret (scan_programs items program_time).

(** The loop of line 360 over the day offsets still to visit. *)
Fixpoint scan_days (h : host) (channel_id : value) (program_time : Z)
    (offsets : list Z) : M value :=
  match offsets with
  | [] => ret VNone
  | day_offset :: rest =>
      programs <- get_epg_program h channel_id day_offset ;;
      if negb (truthy programs) then scan_days h channel_id program_time rest
      else
        s <- lift (scan_day day_offset programs program_time) ;;
        match s with
        | Return v => ret v
        | Continue => scan_days h channel_id program_time rest
        end
  end.

Definition find_program_by_timestamp (h : host) (prima_channel_id : value)
    (utc_timestamp : Z) : M value :=
  program_time <- lift (local_target utc_timestamp) ;;
  scan_days h prima_channel_id program_time (range_down 0 (-8) (-1)).

(* ================================================================== *)
(** ** [get_catchup_stream] *)

Definition channel_name_map : list (string * list string) :=
  [("prima", ["prima"; "tv prima"]);
   ("primacool", ["cool"; "prima cool"]);
   ("primamax", ["max"; "prima max"]);
   ("primakrimi", ["krimi"; "prima krimi"]);
   ("primalove", ["love"; "prima love"]);
   ("primazoom", ["zoom"; "prima zoom"]);
   ("primastar", ["star"; "prima star"]);
   ("primashow", ["show"; "prima show"]);
   ("cnnprimanews", ["cnn"; "cnn prima"])]%string.

Fixpoint assoc (k : string) (m : list (string * list string)) : option (list string) :=
  match m with
  | [] => None
  | (k', v) :: r => if String.eqb k k' then Some v else assoc k r
  end.

(** [channel_name_map.get(channel_id, [channel_id])] *)
Definition search_names_of (channel_id : string) : list string :=
  match assoc channel_id channel_name_map with
  | Some names => names
  | None => [channel_id]
  end.

(** [v.lower()]: only a [str] has it. *)
Definition py_lower (v : value) : outcome string :=
  match v with
  | VStr s => Ret (lower s)
  | _ => Raise
  end.

(** The inner loop of line 465: whether some name is found in the
    title. *)
Definition name_in_title (search_names : list string) (ch_title : string) : bool :=
  existsb (fun name => contains (lower name) ch_title) search_names.

(** The loop of lines 461-471 over the channels still to visit;
    [prima_channel_id] is the variable of that name. *)
Fixpoint match_channels (search_names : list string) (channels : list value)
    (prima_channel_id : value) : outcome value :=
  match channels with
  | [] => Ret prima_channel_id
  | ch :: rest =>
      title <-- py_get ch "title" (VStr "") ;;
      ch_title <-- py_lower title ;;
      ch_id <-- py_get ch "id" (VStr "") ;;
      let prima_channel_id :=
        if name_in_title search_names ch_title then ch_id else prima_channel_id in
      if truthy prima_channel_id then Ret prima_channel_id
      else match_channels search_names rest prima_channel_id
  end.

(** Lines 443-471. *)
Definition resolve_channel (channel_id : string) (channels : value) : outcome value :=
  chs <-- py_iter channels ;;
  match_channels (search_names_of channel_id) chs VNone.

(** The failures [get_catchup_stream] reports, each with the text the
    user is shown under the key ['error']. *)
Inductive failure : Type :=
| LoginRequired
| NoChannelList
| ChannelNotFound (channel_id : string)
| ProgramNotFound
| ProviderError (payload : value)
| StreamRequestError
| StreamNotFound.

(** The fixed part of the text of a failure; [ChannelNotFound] is
    followed by the channel key, [ProviderError] by the payload and
    [StreamRequestError] by the text of the exception. *)
Definition message (f : failure) : string :=
  match f with
  | LoginRequired =>
      "Prima+ catchup vyžaduje přihlášení. Nastavte email a heslo v nastaveních doplňku."
  | NoChannelList => "Nelze získat seznam kanálů Prima"
  | ChannelNotFound channel_id => "Kanál nenalezen: " ++ channel_id
  | ProgramNotFound => "Program nebyl nalezen v archivu Prima+"
  | ProviderError _ => "Prima+ error: "
  | StreamRequestError => "Chyba při získávání streamu: "
  | StreamNotFound => "Stream nenalezen"
  end%string.

(** What [get_catchup_stream] returns: the dict with ['url'],
    ['manifest_type'] = ['hls'] and ['headers'] = [HEADERS], or the dict
    with ['error']. *)
Inductive result : Type :=
| Descriptor (url : string)
| Error (f : failure).

(** The loop of lines 510-517 over the entries still to visit: the url
    of the entry it breaks at, or [None]. *)
Fixpoint prefer_hls (streams : list value) : outcome value :=
  match streams with
  | [] => Ret VNone
  | stream :: rest =>
      stream_type <-- py_get stream "type" (VStr "unknown") ;;
      stream_url_temp <-- py_get stream "url" (VStr "") ;;
      _ <-- py_slice 50 stream_url_temp ;;
      if is_str "HLS" stream_type && truthy stream_url_temp
      then Ret stream_url_temp
      else prefer_hls rest
  end.

(** [stream_url.replace('_lq', '')]: only a [str] has it. *)
Definition py_replace_lq (v : value) : outcome string :=
  match v with
  | VStr s => Ret (replace_lq s)
  | _ => Raise
  end.

(** The [try] of lines 488-540 from the decoded response on, and the
    last line of the function. *)
Definition stream_of_response (resp : option value) : result :=
  try_except
    (data <-- of_response resp ;;
     b <-- py_in "streamInfos" data ;;
     infos <-- (if b then subscript data "streamInfos" else Ret VNone) ;;
     found <-- (if truthy infos
                then (_ <-- py_len infos ;;
                      streams <-- py_iter infos ;;
                      stream_url <-- prefer_hls streams ;;
                      stream_url <-- (if negb (truthy stream_url)
                                      then (first <-- first_item infos ;;
                                            py_get first "url" VNone)
                                      else Ret stream_url) ;;
                      if truthy stream_url
                      then (url <-- py_replace_lq stream_url ;; Ret (Some url))
                      else Ret None)
                else Ret None) ;;
     match found with
     | Some url => Ret (Descriptor url)
     | None =>
         e <-- py_in "error" data ;;
         if e then (payload <-- subscript data "error" ;; Ret (Error (ProviderError payload)))
         else Ret (Error StreamNotFound)
     end)
    (Error StreamRequestError).

Definition get_catchup_stream (h : host) (channel_id : string) (utc_timestamp : Z)
    : M result :=
  token <- get_prima_token h ;;
  if negb (truthy token) then ret (Error LoginRequired)
  else
    channels <- get_epg_channels h ;;
    if negb (truthy channels) then ret (Error NoChannelList)
    else
      prima_channel_id <- lift (resolve_channel channel_id channels) ;;
      if negb (truthy prima_channel_id) then ret (Error (ChannelNotFound channel_id))
      else
        play_id <- find_program_by_timestamp h prima_channel_id utc_timestamp ;;
        if negb (truthy play_id) then ret (Error ProgramNotFound)
        else
          resp <- http h (Play token play_id) ;;
          ret (stream_of_response resp).

(* ================================================================== *)
(** ** Notions used to state the properties *)

(** A text that does not begin in the middle of a character. *)
Definition starts_char (s : string) : bool :=
  match s with
  | EmptyString => true
  | String c _ => negb (is_continuation c)
  end.


(** The title of a channel contains, in lower case, one of the name
    fragments looked for under the caller's key. *)
Definition title_matches (channel_id title : string) : Prop :=
  exists name,
    In name (search_names_of channel_id) /\ contains (lower name) (lower title) = true.



Definition two_channels : value :=
  VList [VDict [("id", VStr "x"); ("title", VStr "Prima Cool")];
         VDict [("id", VStr "y"); ("title", VStr "Prima")]]%string.

Definition channels_first_without_id : list value :=
  [VDict [("title", VStr "Prima COOL")];
   VDict [("id", VStr "y"); ("title", VStr "Prima COOL HD")]]%string.

Definition half_hour_program : list (string * value) :=
  [("title", VStr "Zpravy");
   ("programStartTime", VStr "2024-07-03T11:30:00+02:00");
   ("programEndTime", VStr "2024-07-03T12:00:00+02:00");
   ("isPlayable", VBool true);
   ("playId", VStr "p123")]%string.

(** An entry of [streamInfos] tagged HLS that carries a url. *)
Definition hls_with_url (stream : value) : bool :=
  match stream with
  | VDict sd =>
      is_str "HLS" (dict_get sd "type" (VStr "unknown")) &&
      truthy (dict_get sd "url" (VStr ""))
  | _ => false
  end.

(** An entry the loop over [streamInfos] goes past: a dict whose url is
    text (or absent) and which is not an HLS entry with a url. *)
Definition gone_past (stream : value) : bool :=
  match stream with
  | VDict sd =>
      match dict_get sd "url" (VStr "") with
      | VStr _ => negb (hls_with_url stream)
      | _ => false
      end
  | _ => false
  end.

(** The selection as the specification words it: the url of the first
    entry tagged HLS, or of the first entry when no entry is tagged. *)
Definition spec_selected_url (streams : list value) : value :=
  let tagged stream :=
    match stream with
    | VDict sd => is_str "HLS" (dict_get sd "type" (VStr "unknown"))
    | _ => false
    end in
  match find tagged streams, streams with
  | Some (VDict sd), _ => dict_get sd "url" VNone
  | _, VDict sd :: _ => dict_get sd "url" VNone
  | _, _ => VNone
  end.

Definition streams_first_hls_without_url : list value :=
  [VDict [("type", VStr "HLS"); ("url", VStr "")];
   VDict [("type", VStr "HLS"); ("url", VStr "https://cdn.example/ch/master_lq.m3u8")]]%string.

Definition dash_entry : value :=
  VDict [("type", VStr "DASH"); ("url", VStr "https://cdn.example/a_lq.mpd")]%string.

Definition hls_entry : list (string * value) :=
  [("type", VStr "HLS"); ("url", VStr "https://cdn.example/a_lq.m3u8")]%string.

Definition play_response (streams : value) : list (string * value) :=
  [("streamInfos", streams)]%string.

(** A day whose listing gives the scan nothing: no listing, or a listing
    without a program covering the instant. *)
Definition day_miss (day_offset : Z) (programs : value) (program_time : Z) : Prop :=
  truthy programs = false \/ scan_day day_offset programs program_time = Ret Continue.

(** [days_miss h c T offsets w w']: from the world [w], fetching the
    listings of [offsets] one after the other leads to the world [w'],
    and every one of these days is a miss. *)
Inductive days_miss (h : host) (channel_id : value) (program_time : Z)
    : list Z -> world -> world -> Prop :=
| days_miss_nil (w : world) : days_miss h channel_id program_time [] w w
| days_miss_cons (day_offset : Z) (rest : list Z) (w w1 w2 : world) (programs : value) :
    get_epg_program h channel_id day_offset w = (Ret programs, w1) ->
    day_miss day_offset programs program_time ->
    days_miss h channel_id program_time rest w1 w2 ->
    days_miss h channel_id program_time (day_offset :: rest) w w2.

(** A listing whose first program to cover the instant is the dict [d],
    with start [S] and end [E]. *)
Definition first_covering (programs : value) (d : list (string * value))
    (program_time : Z) : Prop :=
  exists before after S E,
    programs = VList (before ++ VDict d :: after) /\
    scan_programs before program_time = Continue /\
    parse_time (start_field d) = Ret S /\
    parse_time (end_field d) = Ret E /\
    S <= program_time <= E.

(** The world after the login request of [get_prima_token]. *)
Definition after_login (h : host) (w : world) : world :=
  let r := SessionCreate (prima_email h) (prima_password h) in
  {| clock := clock w + latency h r (clock w);
     token_file := token_file w;
     sent := (sent w ++ [r])%list |}.

(** A host whose token file cannot be written and whose login
    succeeds. *)
Definition host_without_storage : host :=
  {| prima_email := "user@example.com";
     prima_password := "secret";
     utcoffset := fun _ => 7200;
     writable := false;
     respond := fun r _ =>
       match r with
       | SessionCreate _ _ =>
           Some (VDict [("accessToken", VDict [("value", VStr "fresh")])])
       | _ => None
       end;
     latency := fun _ _ => 1 |}%string.

Definition first_run : world :=
  {| clock := 1720000000; token_file := None; sent := [] |}.


(** The dates of the listings asked for among the requests sent. *)
Fixpoint requested_dates (requests : list request) : list string :=
  match requests with
  | [] => []
  | ProgramBulkList _ _ date_str :: rest => date_str :: requested_dates rest
  | _ :: rest => requested_dates rest
  end.


(** ** Hosts and worlds used as examples *)

Definition listing_body (items : list value) : value :=
  VDict [("result", VDict [("data", VList [VDict [("items", VList items)]])])]%string.

Definition channel_list_body : value :=
  VDict [("result", VDict [("data", two_channels)])]%string.

(** A host in Prague in summer whose provider answers every call; [epg]
    gives the body of the listing of a date. *)
Definition prima_host (email password : string) (epg : string -> option value) : host :=
  {| prima_email := email;
     prima_password := password;
     utcoffset := fun _ => 7200;
     writable := true;
     respond := fun r _ =>
       match r with
       | SessionCreate _ _ =>
           Some (VDict [("accessToken", VDict [("value", VStr "fresh")])])
       | ChannelList _ => Some channel_list_body
       | ProgramBulkList _ _ date_str => epg date_str
       | Play _ _ => Some (VDict (play_response (VList [VDict hls_entry])))
       end;
     latency := fun _ _ => 1 |}%string.

(** 2024-07-03 12:33:20 UTC, with a cached token still valid. *)
Definition logged_in : world :=
  {| clock := 1720010000;
     token_file := Some (token_record (VStr "cached") 1720020000);
     sent := [] |}.

(** The same program as [half_hour_program], not available for replay. *)
Definition unplayable_program : list (string * value) :=
  [("title", VStr "Zpravy");
   ("programStartTime", VStr "2024-07-03T11:30:00+02:00");
   ("programEndTime", VStr "2024-07-03T12:00:00+02:00");
   ("isPlayable", VBool false);
   ("playId", VStr "p123")]%string.

(** No program on any day. *)
Definition epg_empty (date_str : string) : option value := Some (listing_body []).

(** The half-hour program on 2024-07-03, playable. *)
Definition epg_playable (date_str : string) : option value :=
  if String.eqb date_str "2024-07-03"
  then Some (listing_body [VDict half_hour_program])
  else Some (listing_body []).

(** The half-hour program on 2024-07-03, not playable there, and a
    playable copy of it in the listing of the day before. *)
Definition epg_unplayable (date_str : string) : option value :=
  if String.eqb date_str "2024-07-03"
  then Some (listing_body [VDict unplayable_program])
  else if String.eqb date_str "2024-07-02"
  then Some (listing_body [VDict half_hour_program])
  else Some (listing_body []).

Definition host_empty : host := prima_host "user@example.com" "secret" epg_empty.
Definition host_playable : host := prima_host "user@example.com" "secret" epg_playable.
Definition host_unplayable : host := prima_host "user@example.com" "secret" epg_unplayable.
Definition host_without_credentials : host := prima_host "" "" epg_playable.


(** Central European time by the rules in force since 1996: summer time
    from 01:00 UTC on the last Sunday of March to 01:00 UTC on the last
    Sunday of October. *)
Definition weekday (ord : Z) : Z := (ord + 6) mod 7.

Definition last_sunday (y m : Z) : Z :=
  let last := ymd2ord y m 31 in last - (weekday last + 1) mod 7.

Definition prague_utcoffset (utc_timestamp : Z) : Z :=
  let '(y, _, _) := ord2ymd (utc_timestamp / 86400 + EPOCH_ORD) in
  let summer_from := (last_sunday y 3 - EPOCH_ORD) * 86400 + 3600 in
  let summer_to := (last_sunday y 10 - EPOCH_ORD) * 86400 + 3600 in
  if (summer_from <=? utc_timestamp) && (utc_timestamp <? summer_to)
  then 2 * 3600
  else 1 * 3600.



(* ================================================================== *)
(** ** Live streams *)

Definition PROXY_BASE : string := "http://p.6f.sk".

Definition CHANNELS : list string :=
  ["prima"; "love"; "krimi"; "max"; "cool"; "zoom"; "star"; "show"]%string.

(** The dict [channel_map] of [get_live_stream]. *)
Definition channel_map : list (string * string) :=
  [("prima", "prima");
   ("primalove", "love");
   ("primakrimi", "krimi");
   ("primamax", "max");
   ("primacool", "cool");
   ("primazoom", "zoom");
   ("primastar", "star");
   ("primashow", "show")]%string.

Fixpoint assoc_str (k : string) (m : list (string * string)) : option string :=
  match m with
  | [] => None
  | (k', v) :: r => if String.eqb k k' then Some v else assoc_str k r
  end.

(** [x in l] for a list of strings *)
Definition in_strings (x : string) (l : list string) : bool :=
  existsb (String.eqb x) l.

(** What the live functions return: the dict with ['url'],
    ['manifest_type'] = ['hls'] and ['headers'] = [HEADERS], the dict
    with ['error'] holding the text of an exception, or [None]. *)
Inductive live_result : Type :=
| LiveStream (url : string)
| LiveError
| LiveNone.

(** The [try] of [get_cnn_stream] from the decoded response on, and the
    last line of the function. *)
Definition cnn_stream_of_response (resp : option value) : live_result :=
  try_except
    (data <-- of_response resp ;;
     b <-- py_in "streamInfos" data ;;
     infos <-- (if b then subscript data "streamInfos" else Ret VNone) ;;
     if truthy infos
     then (first <-- first_item infos ;;
           stream <-- subscript first "url" ;;
           stream <-- py_replace_lq stream ;;
           Ret (LiveStream stream))
     else Ret LiveNone)
    LiveError.

(** [get_cnn_stream]: the play endpoint for the product [p650443], with
    the headers [HEADERS] alone, without a token. *)
Definition get_cnn_stream (h : host) : M live_result :=
  resp <- http h (Play VNone (VStr "p650443")) ;;
  ret (cnn_stream_of_response resp).

(** [get_live_stream].  The requests of lines 209-222, which keep the
    relay awake, are not recorded in the world, nor is the time they
    take: every exception they may raise is swallowed where it occurs and
    nothing of their answers reaches the value returned. *)
Definition get_live_stream (h : host) (channel_id : string) : M live_result :=
  if String.eqb channel_id "cnn" || String.eqb channel_id "cnnprimanews"
  then get_cnn_stream h
  else
    let channel :=
      match assoc_str channel_id channel_map with
      | Some c => c
      | None => channel_id
      end in
    if negb (in_strings channel CHANNELS) then ret LiveNone
    else ret (LiveStream (PROXY_BASE ++ "/iprima.php?ch=" ++ channel)).

(** The world has no token file, or one that is not a dict, or the dict
    that [get_prima_token] saves. *)
Definition cache_well_formed (w : world) : Prop :=
  match token_file w with
  | Some (VDict d) => exists token valid_to, VDict d = token_record token valid_to
  | _ => True
  end.

(** [int], [bool] and [float] are the values that compare with an
    integer. *)
Definition is_number (v : value) : bool :=
  match v with
  | VInt _ | VBool _ | VFloat _ _ => true
  | _ => false
  end.

(** The first run after 1000 seconds, with the token saved by the
    login. *)
Definition second_run : world :=
  {| clock := 1720001000;
     token_file := Some (token_record (VStr "fresh") (1720000001 + 7 * 3600));
     sent := [] |}.

(** A token file written by some other program: [valid_to] is text. *)
Definition foreign_cache : world :=
  {| clock := 1720000000;
     token_file := Some (VDict [("token", VStr "t"); ("valid_to", VStr "2024-07-04")]%string);
     sent := [] |}.

(** A cached token that expires at this very second. *)
Definition expiring_now : world :=
  {| clock := 1720000000;
     token_file := Some (token_record (VStr "old") 1720000000);
     sent := [] |}.

(** A computation that leaves the token file well formed when it finds
    it so. *)
Definition keeps_cache {A : Type} (m : M A) : Prop :=
  forall w, cache_well_formed w -> cache_well_formed (snd (m w)).

(** A computation that only adds requests to those sent, at most [n] of
    them, of which at most [k] ask for a listing. *)
Definition sends {A : Type} (n k : nat) (m : M A) : Prop :=
  forall w, exists extra,
    sent (snd (m w)) = (sent w ++ extra)%list /\
    (List.length extra <= n)%nat /\
    (List.length (requested_dates extra) <= k)%nat.

(** A world whose token file holds an empty token that has not expired,
    as a login answered with an empty [value] leaves it. *)
Definition empty_token_cached : world :=
  {| clock := 1720010000;
     token_file := Some (token_record (VStr "") 1720020000);
     sent := [] |}.

(* ================================================================== *)
(** * Properties *)

(** ** Items of a listing *)

Lemma strptime_str_nonempty (s : string) (t : Z) :
  strptime_str (take_str 19 s) = Ret t -> s <> EmptyString.
Proof.
  intros H E. subst s. vm_compute in H. discriminate.
Qed.

Lemma parse_time_str (v : value) (t : Z) :
  parse_time v = Ret t ->
  exists s, v = VStr s /\ strptime_str (take_str 19 s) = Ret t /\ truthy v = true.
Proof.
  destruct v; cbn; try discriminate.
  intros H. exists s. split; [reflexivity|]. split; [exact H|].
  apply strptime_str_nonempty in H.
  destruct s; [congruence | reflexivity].
Qed.

Lemma check_program_times (d : list (string * value)) (S E T : Z) :
  parse_time (start_field d) = Ret S ->
  parse_time (end_field d) = Ret E ->
  check_program (VDict d) T =
  Ret (if (S <=? T) && (T <=? E) then Return (covering_result d) else Continue).
Proof.
  intros HS HE.
  destruct (parse_time_str _ _ HS) as (s & Es & Ps & Ts).
  destruct (parse_time_str _ _ HE) as (e & Ee & Pe & Te).
  unfold check_program. lazy zeta. rewrite Ts, Te. cbn [negb orb].
  rewrite Es, Ee. cbn [py_slice obind strptime].
  rewrite Ps, Pe. cbn [obind].
  destruct ((S <=? T) && (T <=? E)); reflexivity.
Qed.


Lemma scan_programs_app (l1 l2 : list value) (T : Z) :
  scan_programs (l1 ++ l2) T =
  match scan_programs l1 T with
  | Return v => Return v
  | Continue => scan_programs l2 T
  end.
Proof.
  induction l1 as [|p l1 IH]; [reflexivity|].
  cbn [app scan_programs].
  destruct (try_except (check_program p T) Continue); [exact IH | reflexivity].
Qed.

(** C6. The interval test is inclusive at both ends: for a program whose
    start and end parse to [S] and [E], the loop reports the program at
    the instant [T] exactly when [S <= T <= E], and moves on to the next
    item otherwise; in particular it reports it at [T = S] and at
    [T = E]. *)
Theorem interval_match_inclusive (d : list (string * value)) (S E : Z) :
  parse_time (start_field d) = Ret S ->
  parse_time (end_field d) = Ret E ->
  (forall T, check_program (VDict d) T = Ret (Return (covering_result d)) <-> S <= T <= E) /\
  (forall T, ~ S <= T <= E -> check_program (VDict d) T = Ret Continue) /\
  (S <= E ->
   check_program (VDict d) S = Ret (Return (covering_result d)) /\
   check_program (VDict d) E = Ret (Return (covering_result d))).
Proof.
  intros HS HE.
  assert (Hin : forall T, S <= T <= E ->
                check_program (VDict d) T = Ret (Return (covering_result d))).
  { intros T HT. rewrite (check_program_times d S E T HS HE).
    replace (S <=? T) with true by (symmetry; apply Z.leb_le; lia).
    replace (T <=? E) with true by (symmetry; apply Z.leb_le; lia).
    reflexivity. }
  assert (Hout : forall T, ~ S <= T <= E -> check_program (VDict d) T = Ret Continue).
  { intros T HT. rewrite (check_program_times d S E T HS HE).
    destruct (S <=? T) eqn:H1; [|reflexivity].
    destruct (T <=? E) eqn:H2; [|reflexivity].
    apply Z.leb_le in H1, H2. lia. }
  split; [|split].
  - intros T. split; [|apply Hin].
    intros H. destruct (Z_le_dec S T) as [H1|H1], (Z_le_dec T E) as [H2|H2];
      try (split; assumption);
      rewrite Hout in H by lia; discriminate.
  - exact Hout.
  - intros HSE. split; apply Hin; lia.
Qed.


(** ** Channel resolution *)

Lemma name_in_title_matches (channel_id t : string) :
  name_in_title (search_names_of channel_id) (lower t) = true <->
  title_matches channel_id t.
Proof.
  unfold name_in_title, title_matches. rewrite existsb_exists. reflexivity.
Qed.



(** ** Archive stream selection *)

Lemma prefer_hls_gone_past (before rest : list value) :
  forallb gone_past before = true ->
  prefer_hls (before ++ rest) = prefer_hls rest.
Proof.
  induction before as [|s before IH]; [reflexivity|].
  cbn [forallb]. intros H. apply andb_prop in H. destruct H as [Hs Hb].
  destruct s; try discriminate.
  cbn [app prefer_hls py_get obind]. cbn [gone_past hls_with_url] in Hs.
  destruct (dict_get d "url" (VStr "")) eqn:Eu; try discriminate.
  cbn [py_slice obind].
  apply negb_true_iff in Hs. rewrite Hs. apply IH. exact Hb.
Qed.

Lemma prefer_hls_none (streams : list value) :
  forallb gone_past streams = true -> prefer_hls streams = Ret VNone.
Proof.
  intros H. rewrite <- (app_nil_r streams).
  rewrite (prefer_hls_gone_past streams [] H). reflexivity.
Qed.

Lemma truthy_str (u : string) : u <> EmptyString -> truthy (VStr u) = true.
Proof.
  intros H. destruct u; [congruence | reflexivity].
Qed.

Lemma truthy_app_cons (l1 l2 : list value) (x : value) :
  truthy (VList (l1 ++ x :: l2)) = true.
Proof.
  destruct l1; reflexivity.
Qed.

(** C8, as amended. The url of the descriptor is the url of the first
    entry of [streamInfos] that is tagged HLS and has a non-empty url, or
    the non-empty url of the first entry when there is no such entry,
    with every ["_lq"] removed; when [streamInfos] is absent or empty the
    result is an error. *)
Theorem archive_stream_selection (d : list (string * value)) :
  (forall before sd after u,
      lookup "streamInfos" d = Some (VList (before ++ VDict sd :: after)) ->
      forallb gone_past before = true ->
      dict_get sd "type" (VStr "unknown") = VStr "HLS" ->
      dict_get sd "url" (VStr "") = VStr u ->
      u <> EmptyString ->
      stream_of_response (Some (VDict d)) = Descriptor (replace_lq u)) /\
  (forall sd rest u,
      lookup "streamInfos" d = Some (VList (VDict sd :: rest)) ->
      forallb gone_past (VDict sd :: rest) = true ->
      dict_get sd "url" VNone = VStr u ->
      u <> EmptyString ->
      stream_of_response (Some (VDict d)) = Descriptor (replace_lq u)) /\
  ((lookup "streamInfos" d = None \/
    exists v, lookup "streamInfos" d = Some v /\ truthy v = false) ->
   exists f, stream_of_response (Some (VDict d)) = Error f).
Proof.
  split; [|split].
  - intros before sd after u Hl Hb Hty Hu Hne.
    unfold stream_of_response. cbn [of_response obind py_in subscript].
    rewrite Hl. cbn [obind]. rewrite truthy_app_cons.
    cbn [py_len py_iter obind].
    rewrite (prefer_hls_gone_past before _ Hb).
    cbn [prefer_hls py_get obind]. rewrite Hty, Hu. cbn [py_slice obind is_str].
    rewrite (truthy_str u Hne). cbn [String.eqb Ascii.eqb Bool.eqb andb obind negb].
    rewrite (truthy_str u Hne). cbn [negb obind].
    rewrite (truthy_str u Hne). reflexivity.
  - intros sd rest u Hl Hb Hu Hne.
    unfold stream_of_response. cbn [of_response obind py_in subscript].
    rewrite Hl. cbn [obind truthy py_len py_iter].
    rewrite (prefer_hls_none _ Hb).
    cbn [obind truthy negb first_item py_get]. rewrite Hu.
    rewrite (truthy_str u Hne). reflexivity.
  - intros H.
    unfold stream_of_response. cbn [of_response obind py_in subscript].
    destruct H as [H | (v & H & Hv)]; rewrite H; cbn [obind truthy]; try rewrite Hv;
      cbn [obind]; destruct (lookup "error" d); eexists; reflexivity.
Qed.

(** ** The backward scan over the days *)

Lemma scan_day_first_covering (day_offset : Z) (programs : value)
    (d : list (string * value)) (T : Z) :
  first_covering programs d T ->
  truthy programs = true /\
  scan_day day_offset programs T = Ret (Return (covering_result d)).
Proof.
  intros (before & after & S & E & -> & Hb & HS & HE & HT).
  split; [apply truthy_app_cons|].
  unfold scan_day.
  assert (Hs : scan_programs (before ++ VDict d :: after) T = Return (covering_result d)).
  { rewrite scan_programs_app, Hb. cbn [scan_programs].
    rewrite (check_program_times d S E T HS HE).
    replace (S <=? T) with true by (symmetry; apply Z.leb_le; lia).
    replace (T <=? E) with true by (symmetry; apply Z.leb_le; lia).
    reflexivity. }
  rewrite <- Hs.
  destruct (before ++ VDict d :: after) as [|x l] eqn:El.
  - destruct before; discriminate.
  - cbn [py_len obind py_iter first_item]. destruct (day_offset =? 0); reflexivity.
Qed.

Lemma scan_days_miss (h : host) (cid : value) (T : Z) (offsets : list Z) (w w' : world) :
  days_miss h cid T offsets w w' ->
  forall rest, scan_days h cid T (offsets ++ rest) w = scan_days h cid T rest w'.
Proof.
  induction 1 as [|o offs w w1 w2 programs Hget Hmiss _ IH]; intros rest.
  - reflexivity.
  - cbn [app scan_days]. unfold bind at 1. rewrite Hget.
    destruct Hmiss as [Hm | Hm].
    + rewrite Hm. cbn [negb]. apply IH.
    + destruct (truthy programs); cbn [negb]; [|apply IH].
      unfold bind, lift. rewrite Hm. apply IH.
Qed.

Lemma scan_days_hit (h : host) (cid : value) (T : Z) (before : list Z) (o : Z)
    (rest : list Z) (w w0 w1 : world) (programs : value) (d : list (string * value)) :
  days_miss h cid T before w w0 ->
  get_epg_program h cid o w0 = (Ret programs, w1) ->
  first_covering programs d T ->
  scan_days h cid T (before ++ o :: rest) w = (Ret (covering_result d), w1).
Proof.
  intros Hb Hget Hc.
  rewrite (scan_days_miss h cid T before w w0 Hb).
  destruct (scan_day_first_covering o programs d T Hc) as [Ht Hs].
  cbn [scan_days]. unfold bind at 1. rewrite Hget, Ht. cbn [negb].
  unfold bind, lift. rewrite Hs. reflexivity.
Qed.

Lemma find_program_unfold (h : host) (cid : value) (ts T : Z) (w : world) :
  local_target ts = Ret T ->
  find_program_by_timestamp h cid ts w =
  scan_days h cid T [0; -1; -2; -3; -4; -5; -6; -7] w.
Proof.
  intros HT. unfold find_program_by_timestamp, bind, lift. rewrite HT. reflexivity.
Qed.

(** ** The token *)

Lemma cached_valid_true (cached : value) (now : Z) :
  cached_valid cached now = Ret true ->
  exists d token valid_to,
    cached = VDict d /\ lookup "token" d = Some token /\
    lookup "valid_to" d = Some valid_to /\ py_gt valid_to now = Ret true.
Proof.
  unfold cached_valid. intros H.
  destruct (truthy cached) eqn:Ht; [|discriminate].
  destruct cached; cbn [py_in obind subscript] in H; try discriminate.
  - destruct (contains "token" s); cbn [obind] in H; [|discriminate].
    destruct (contains "valid_to" s); discriminate.
  - destruct (existsb (is_str "token") l); cbn [obind] in H; [|discriminate].
    destruct (existsb (is_str "valid_to") l); discriminate.
  - destruct (lookup "token" d) as [token|] eqn:Etok; [|discriminate].
    destruct (lookup "valid_to" d) as [valid_to|] eqn:Eval; [|discriminate].
    cbn [obind] in H. exists d, token, valid_to. repeat split; assumption.
Qed.

Lemma get_prima_token_cached (h : host) (w : world) (d : list (string * value))
    (token : value) :
  cached_valid (cached_record w) (clock w) = Ret true ->
  cached_record w = VDict d ->
  lookup "token" d = Some token ->
  get_prima_token h w = (Ret token, w).
Proof.
  intros Hv Hd Ht.
  unfold get_prima_token, bind, load_token, time_time, lift.
  rewrite Hv, Hd. cbn [subscript]. rewrite Ht. reflexivity.
Qed.

Lemma get_prima_token_fresh (h : host) (w : world) :
  cached_valid (cached_record w) (clock w) = Ret false ->
  get_prima_token h w =
  if String.eqb (prima_email h) "" || String.eqb (prima_password h) ""
  then (Ret VNone, w)
  else
    match login_token (respond h (SessionCreate (prima_email h) (prima_password h)) (clock w)) with
    | Some token =>
        (Ret token,
         if writable h
         then {| clock := clock (after_login h w);
                 token_file :=
                   Some (token_record token (clock (after_login h w) + TOKEN_VALIDITY));
                 sent := sent (after_login h w) |}
         else after_login h w)
    | None => (Ret VNone, after_login h w)
    end.
Proof.
  intros Hv.
  unfold get_prima_token, bind, load_token, time_time, lift. rewrite Hv.
  destruct (String.eqb (prima_email h) "" || String.eqb (prima_password h) "");
    [reflexivity|].
  unfold http. fold (after_login h w).
  destruct (login_token _); reflexivity.
Qed.

(** C4, as amended. A cached token whose [valid_to] is greater than the
    current time is returned as it is, and nothing is sent or written.
    Otherwise a token is returned only after a login request, and the
    record holding it with [valid_to = now + 7 * 3600] has been handed to
    [save_token] before: it is in the token file when the file can be
    written, and the token is returned all the same when it cannot. *)
Theorem get_prima_token_cached_or_fresh (h : host) (w : world) :
  (cached_valid (cached_record w) (clock w) = Ret true ->
   exists d token valid_to,
     cached_record w = VDict d /\ lookup "token" d = Some token /\
     lookup "valid_to" d = Some valid_to /\ py_gt valid_to (clock w) = Ret true /\
     get_prima_token h w = (Ret token, w)) /\
  (forall token w',
     cached_valid (cached_record w) (clock w) = Ret false ->
     get_prima_token h w = (Ret token, w') ->
     token <> VNone ->
     sent w' = (sent w ++ [SessionCreate (prima_email h) (prima_password h)])%list /\
     login_token (respond h (SessionCreate (prima_email h) (prima_password h)) (clock w))
     = Some token /\
     (writable h = true ->
      token_file w' = Some (token_record token (clock w' + 7 * 3600))) /\
     (writable h = false -> token_file w' = token_file w)).
Proof.
  split.
  - intros Hv.
    destruct (cached_valid_true _ _ Hv) as (d & token & valid_to & Hd & Ht & Hvt & Hgt).
    exists d, token, valid_to. repeat split; try assumption.
    apply (get_prima_token_cached h w d token Hv Hd Ht).
  - intros token w' Hv Hget Hne.
    rewrite (get_prima_token_fresh h w Hv) in Hget.
    destruct (String.eqb (prima_email h) "" || String.eqb (prima_password h) "").
    { inversion Hget; subst. congruence. }
    destruct (login_token _) as [token0|] eqn:Hl.
    2:{ inversion Hget; subst. congruence. }
    inversion Hget; subst token0; clear Hget.
    destruct (writable h); subst w'; cbn; repeat split; try reflexivity; discriminate.
Qed.

(** C9, as amended. With an empty email or password, when the test of
    the cache at lines 110-111 finds no valid token (no record, a record
    without [token] or [valid_to], or a [valid_to] that is a number not
    greater than the current time), the catchup resolution fails with
    the missing-credentials error, and the world is left as it was:
    nothing has been sent. *)
Theorem missing_credentials_without_network
    (h : host) (channel_id : string) (utc_timestamp : Z) (w : world) :
  prima_email h = EmptyString \/ prima_password h = EmptyString ->
  cached_valid (cached_record w) (clock w) = Ret false ->
  get_catchup_stream h channel_id utc_timestamp w = (Ret (Error LoginRequired), w).
Proof.
  intros Hc Hv.
  unfold get_catchup_stream, bind at 1.
  rewrite (get_prima_token_fresh h w Hv).
  replace (String.eqb (prima_email h) "" || String.eqb (prima_password h) "") with true.
  - reflexivity.
  - symmetry. apply orb_true_iff.
    destruct Hc as [Hc | Hc]; rewrite Hc; [left | right]; reflexivity.
Qed.

(** ** Fetching the listings *)



(** C7. When the scan comes to the first program covering the local
    target instant, the search returns at once, in the world left by the
    fetch of that day's listing: the play id when the program is playable
    and has one, [None] otherwise.  The days after it in the scan are not
    fetched, whatever their listings hold. *)
Theorem first_covering_program_ends_scan
    (h : host) (cid : value) (ts T : Z) (before : list Z) (o : Z) (rest : list Z)
    (w w0 w1 : world) (programs : value) (d : list (string * value)) :
  local_target ts = Ret T ->
  range_down 0 (-8) (-1) = (before ++ o :: rest)%list ->
  days_miss h cid T before w w0 ->
  get_epg_program h cid o w0 = (Ret programs, w1) ->
  first_covering programs d T ->
  find_program_by_timestamp h cid ts w = (Ret (covering_result d), w1) /\
  sent (snd (find_program_by_timestamp h cid ts w)) = sent w1 /\
  covering_result d =
  (if truthy (dict_get d "isPlayable" (VBool false)) &&
      truthy (py_or (dict_get d "playId" VNone) (dict_get d "id" VNone))
   then py_or (dict_get d "playId" VNone) (dict_get d "id" VNone)
   else VNone).
Proof.
  intros HT Hr Hb Hget Hc.
  assert (Hf : find_program_by_timestamp h cid ts w = (Ret (covering_result d), w1)).
  { rewrite (find_program_unfold h cid ts T w HT).
    change [0; -1; -2; -3; -4; -5; -6; -7] with (range_down 0 (-8) (-1)).
    rewrite Hr. apply (scan_days_hit h cid T before o rest w w0 w1 programs d Hb Hget Hc). }
  split; [exact Hf|]. split; [rewrite Hf; reflexivity | reflexivity].
Qed.


(** ** The catchup resolution *)

Lemma get_catchup_stream_to_search (h : host) (channel_id : string) (ts : Z)
    (w w1 w2 : world) (token channels cid : value) :
  get_prima_token h w = (Ret token, w1) ->
  truthy token = true ->
  get_epg_channels h w1 = (Ret channels, w2) ->
  truthy channels = true ->
  resolve_channel channel_id channels = Ret cid ->
  truthy cid = true ->
  get_catchup_stream h channel_id ts w =
  bind (find_program_by_timestamp h cid ts)
       (fun play_id =>
          if negb (truthy play_id) then ret (Error ProgramNotFound)
          else bind (http h (Play token play_id))
                    (fun resp => ret (stream_of_response resp))) w2.
Proof.
  intros Ht Htt Hc Hct Hr Hrt.
  unfold get_catchup_stream, bind at 1. rewrite Ht, Htt. cbn [negb].
  unfold bind at 1. rewrite Hc, Hct. cbn [negb].
  unfold bind at 1, lift. rewrite Hr, Hrt. reflexivity.
Qed.

(** C2, as amended. A covering program that is not available for replay
    and the absence of any covering program in the eight days are
    reported alike: in both cases the search returns [None] and the
    catchup resolution fails with the one message
    ["Program nebyl nalezen v archivu Prima+"]; only the log tells them
    apart. *)
Theorem unplayable_and_missing_reported_alike
    (h : host) (channel_id : string) (ts T : Z) (w w1 w2 w3 : world)
    (token channels cid : value) :
  get_prima_token h w = (Ret token, w1) ->
  truthy token = true ->
  get_epg_channels h w1 = (Ret channels, w2) ->
  truthy channels = true ->
  resolve_channel channel_id channels = Ret cid ->
  truthy cid = true ->
  local_target ts = Ret T ->
  (exists before o rest w0 programs d,
      range_down 0 (-8) (-1) = (before ++ o :: rest)%list /\
      days_miss h cid T before w2 w0 /\
      get_epg_program h cid o w0 = (Ret programs, w3) /\
      first_covering programs d T /\
      truthy (dict_get d "isPlayable" (VBool false)) &&
      truthy (py_or (dict_get d "playId" VNone) (dict_get d "id" VNone)) = false) \/
  days_miss h cid T [0; -1; -2; -3; -4; -5; -6; -7] w2 w3 ->
  find_program_by_timestamp h cid ts w2 = (Ret VNone, w3) /\
  get_catchup_stream h channel_id ts w = (Ret (Error ProgramNotFound), w3) /\
  message ProgramNotFound = "Program nebyl nalezen v archivu Prima+"%string.
Proof.
  intros Ht Htt Hc Hct Hr Hrt HT Hcase.
  assert (Hf : find_program_by_timestamp h cid ts w2 = (Ret VNone, w3)).
  { rewrite (find_program_unfold h cid ts T w2 HT).
    destruct Hcase as [(before & o & rest & w0 & programs & d & Hrange & Hb & Hget & Hcov & Hnp)
                      | Hmiss].
    - change [0; -1; -2; -3; -4; -5; -6; -7] with (range_down 0 (-8) (-1)).
      rewrite Hrange.
      rewrite (scan_days_hit h cid T before o rest w2 w0 w3 programs d Hb Hget Hcov).
      unfold covering_result. rewrite Hnp. reflexivity.
    - rewrite <- (app_nil_r [0; -1; -2; -3; -4; -5; -6; -7]).
      rewrite (scan_days_miss h cid T _ w2 w3 Hmiss). reflexivity. }
  split; [exact Hf|]. split; [|reflexivity].
  rewrite (get_catchup_stream_to_search h channel_id ts w w1 w2 token channels cid
             Ht Htt Hc Hct Hr Hrt).
  unfold bind at 1. rewrite Hf. reflexivity.
Qed.

(** ** The local time of the target instant *)

(** Whatever the date, the instant compared with the listings is one
    hour after UTC. *)
Lemma local_target_fixed_offset (ts T : Z) :
  local_target ts = Ret T -> T = ts + 3600.
Proof.
  unfold local_target, utcfromtimestamp, add_timedelta.
  destruct (in_datetime_range ts); cbn [obind]; [|discriminate].
  destruct (in_datetime_range (ts + 1 * 3600)); [|discriminate].
  intros H. inversion H. lia.
Qed.

(* ================================================================== *)
(** * Further properties *)

(** ** The token cache *)

Lemma cached_valid_record (token : value) (valid_to now : Z) :
  cached_valid (token_record token valid_to) now = Ret (now <? valid_to).
Proof.
  reflexivity.
Qed.

(** X1. A token obtained by a login and saved is returned again, without
    any request, by every later call made before seven hours have passed
    since the login, as long as the token file is left alone. *)
Theorem saved_token_is_reused (h : host) (w w1 w2 : world) (token : value) :
  writable h = true ->
  cached_valid (cached_record w) (clock w) = Ret false ->
  get_prima_token h w = (Ret token, w1) ->
  token <> VNone ->
  token_file w2 = token_file w1 ->
  clock w2 < clock w1 + 7 * 3600 ->
  get_prima_token h w2 = (Ret token, w2).
Proof.
  intros Hw Hv Hget Hne Hfile Hclock.
  rewrite (get_prima_token_fresh h w Hv) in Hget.
  destruct (String.eqb (prima_email h) "" || String.eqb (prima_password h) "").
  { inversion Hget. congruence. }
  destruct (login_token _) as [token0|].
  2:{ inversion Hget. congruence. }
  rewrite Hw in Hget. inversion Hget; subst token0 w1; clear Hget.
  cbn [token_file clock] in *.
  assert (Hrec : cached_record w2 =
                 token_record token (clock (after_login h w) + TOKEN_VALIDITY)).
  { unfold cached_record. rewrite Hfile. reflexivity. }
  apply (get_prima_token_cached h w2
           [("token"%string, token);
            ("valid_to"%string, VInt (clock (after_login h w) + TOKEN_VALIDITY))] token).
  - rewrite Hrec, cached_valid_record. f_equal. apply Z.ltb_lt. exact Hclock.
  - exact Hrec.
  - reflexivity.
Qed.

(** X2. A cached token whose [valid_to] is not greater than the current
    time is not used, not even at the very second of [valid_to]: with
    credentials configured a login request is sent and the value returned
    is the one of the login, [None] when it fails; without credentials
    [None] is returned and nothing is sent. *)
Theorem expired_token_is_not_reused (h : host) (w : world)
    (d : list (string * value)) (valid_to : Z) :
  cached_record w = VDict d ->
  lookup "valid_to" d = Some (VInt valid_to) ->
  valid_to <= clock w ->
  (prima_email h <> EmptyString -> prima_password h <> EmptyString ->
   fst (get_prima_token h w) =
   Ret (match login_token (respond h (SessionCreate (prima_email h) (prima_password h))
                             (clock w)) with
        | Some token => token
        | None => VNone
        end) /\
   sent (snd (get_prima_token h w)) =
   (sent w ++ [SessionCreate (prima_email h) (prima_password h)])%list) /\
  (prima_email h = EmptyString \/ prima_password h = EmptyString ->
   get_prima_token h w = (Ret VNone, w)).
Proof.
  intros Hd Hvt Hle.
  assert (Hv : cached_valid (cached_record w) (clock w) = Ret false).
  { rewrite Hd. unfold cached_valid. cbn [py_in obind subscript].
    destruct d as [|kv d']; [discriminate|]. cbn [truthy].
    rewrite Hvt.
    destruct (lookup "token" (kv :: d')); cbn [obind py_gt]; [|reflexivity].
    f_equal. apply Z.ltb_ge. exact Hle. }
  rewrite (get_prima_token_fresh h w Hv). split.
  - intros He Hp.
    replace (String.eqb (prima_email h) "") with false
      by (symmetry; apply String.eqb_neq; exact He).
    replace (String.eqb (prima_password h) "") with false
      by (symmetry; apply String.eqb_neq; exact Hp).
    cbn [orb].
    destruct (login_token _); [destruct (writable h)|]; split; reflexivity.
  - intros Hc.
    replace (String.eqb (prima_email h) "" || String.eqb (prima_password h) "") with true.
    + reflexivity.
    + symmetry. apply orb_true_iff.
      destruct Hc as [Hc | Hc]; rewrite Hc; [left | right]; reflexivity.
Qed.

(** X3. A token file holding a dict with a token and a [valid_to] that is
    not a number (text, [null], a list, a dict) makes [get_prima_token]
    raise at the comparison of line 111, and the catchup resolution with
    it, before anything is sent. *)
Theorem foreign_valid_to_raises (h : host) (channel_id : string) (ts : Z) (w : world)
    (d : list (string * value)) (token valid_to : value) :
  cached_record w = VDict d ->
  lookup "token" d = Some token ->
  lookup "valid_to" d = Some valid_to ->
  is_number valid_to = false ->
  get_prima_token h w = (Raise, w) /\
  get_catchup_stream h channel_id ts w = (Raise, w).
Proof.
  intros Hd Ht Hvt Hn.
  assert (Hv : cached_valid (cached_record w) (clock w) = Raise).
  { rewrite Hd. unfold cached_valid. cbn [py_in obind subscript].
    destruct d as [|kv d']; [discriminate|]. cbn [truthy].
    rewrite Ht, Hvt. cbn [obind].
    destruct valid_to; try discriminate; reflexivity. }
  assert (Hg : get_prima_token h w = (Raise, w)).
  { unfold get_prima_token, bind, load_token, time_time, lift. rewrite Hv. reflexivity. }
  split; [exact Hg|].
  unfold get_catchup_stream, bind at 1. rewrite Hg. reflexivity.
Qed.

(** ** What the pipeline keeps and what it sends *)

Lemma keeps_cache_ret {A : Type} (a : A) : keeps_cache (ret a).
Proof. intros w H. exact H. Qed.

Lemma keeps_cache_lift {A : Type} (o : outcome A) : keeps_cache (lift o).
Proof. intros w H. exact H. Qed.

Lemma keeps_cache_bind {A B : Type} (m : M A) (k : A -> M B) :
  keeps_cache m -> (forall a, keeps_cache (k a)) -> keeps_cache (bind m k).
Proof.
  intros Hm Hk w H. unfold bind.
  specialize (Hm w H). destruct (m w) as [[a|] w1]; cbn [snd] in *.
  - apply Hk. exact Hm.
  - exact Hm.
Qed.

Lemma keeps_cache_http (h : host) (r : request) : keeps_cache (http h r).
Proof. intros w H. exact H. Qed.

Lemma cache_well_formed_record (w : world) :
  cache_well_formed w ->
  cached_record w = VNone \/
  exists token valid_to, cached_record w = token_record token valid_to.
Proof.
  unfold cache_well_formed, cached_record.
  destruct (token_file w) as [[]|]; try (left; reflexivity).
  intros (token & valid_to & H). right. exists token, valid_to. exact H.
Qed.

Lemma get_prima_token_returns (h : host) (w : world) :
  cache_well_formed w ->
  exists v w', get_prima_token h w = (Ret v, w') /\ cache_well_formed w'.
Proof.
  intros Hw.
  assert (Hcases : cached_valid (cached_record w) (clock w) = Ret false \/
                   exists token valid_to,
                     cached_record w = token_record token valid_to /\
                     cached_valid (cached_record w) (clock w) = Ret true).
  { destruct (cache_well_formed_record w Hw) as [H | (token & valid_to & H)].
    - left. rewrite H. reflexivity.
    - destruct (clock w <? valid_to) eqn:Hlt.
      + right. exists token, valid_to. split; [exact H|].
        rewrite H, cached_valid_record, Hlt. reflexivity.
      + left. rewrite H, cached_valid_record, Hlt. reflexivity. }
  destruct Hcases as [Hv | (token & valid_to & Hrec & Hv)].
  - rewrite (get_prima_token_fresh h w Hv).
    destruct (String.eqb (prima_email h) "" || String.eqb (prima_password h) "").
    { exists VNone, w. split; [reflexivity | exact Hw]. }
    destruct (login_token _) as [token|].
    + eexists _, _. split; [reflexivity|].
      destruct (writable h).
      * unfold cache_well_formed. cbn [token_file]. eexists _, _. reflexivity.
      * exact Hw.
    + eexists _, _. split; [reflexivity | exact Hw].
  - exists token, w. split; [|exact Hw].
    apply (get_prima_token_cached h w _ token Hv Hrec). reflexivity.
Qed.

Lemma keeps_cache_get_prima_token (h : host) : keeps_cache (get_prima_token h).
Proof.
  intros w Hw. destruct (get_prima_token_returns h w Hw) as (v & w' & -> & H). exact H.
Qed.

Lemma keeps_cache_get_epg_channels (h : host) : keeps_cache (get_epg_channels h).
Proof.
  unfold get_epg_channels.
  apply keeps_cache_bind; [apply keeps_cache_get_prima_token|].
  intros token. destruct (negb (truthy token)); [apply keeps_cache_ret|].
  apply keeps_cache_bind; [apply keeps_cache_http|]. intros resp. apply keeps_cache_ret.
Qed.

Lemma keeps_cache_get_epg_program (h : host) (cid : value) (o : Z) :
  keeps_cache (get_epg_program h cid o).
Proof.
  unfold get_epg_program.
  apply keeps_cache_bind; [apply keeps_cache_get_prima_token|].
  intros token. destruct (negb (truthy token)); [apply keeps_cache_ret|].
  apply keeps_cache_bind; [intros w H; exact H|].
  intros now. destruct (add_timedelta now (o * 86400)); [|apply keeps_cache_ret].
  apply keeps_cache_bind; [apply keeps_cache_http|]. intros resp. apply keeps_cache_ret.
Qed.

Lemma keeps_cache_scan_days (h : host) (cid : value) (T : Z) (offsets : list Z) :
  keeps_cache (scan_days h cid T offsets).
Proof.
  induction offsets as [|o rest IH]; cbn [scan_days]; [apply keeps_cache_ret|].
  apply keeps_cache_bind; [apply keeps_cache_get_epg_program|].
  intros programs. destruct (negb (truthy programs)); [exact IH|].
  apply keeps_cache_bind; [apply keeps_cache_lift|].
  intros [|v]; [exact IH | apply keeps_cache_ret].
Qed.

Lemma keeps_cache_find_program (h : host) (cid : value) (ts : Z) :
  keeps_cache (find_program_by_timestamp h cid ts).
Proof.
  unfold find_program_by_timestamp.
  apply keeps_cache_bind; [apply keeps_cache_lift|].
  intros T. apply keeps_cache_scan_days.
Qed.

(** X4. A token file that is absent, that does not hold a dict, or that
    holds the record [get_prima_token] saves never makes
    [get_prima_token] raise, and the catchup resolution leaves the token
    file in one of these states: the pipeline never writes a token file
    that a later call would stumble on. *)
Theorem token_file_stays_well_formed (h : host) (channel_id : string) (ts : Z) (w : world) :
  cache_well_formed w ->
  (exists v w', get_prima_token h w = (Ret v, w')) /\
  cache_well_formed (snd (get_catchup_stream h channel_id ts w)).
Proof.
  intros Hw. split.
  - destruct (get_prima_token_returns h w Hw) as (v & w' & H & _). exists v, w'. exact H.
  - revert w Hw. change (keeps_cache (get_catchup_stream h channel_id ts)).
    unfold get_catchup_stream.
    apply keeps_cache_bind; [apply keeps_cache_get_prima_token|].
    intros token. destruct (negb (truthy token)); [apply keeps_cache_ret|].
    apply keeps_cache_bind; [apply keeps_cache_get_epg_channels|].
    intros channels. destruct (negb (truthy channels)); [apply keeps_cache_ret|].
    apply keeps_cache_bind; [apply keeps_cache_lift|].
    intros cid. destruct (negb (truthy cid)); [apply keeps_cache_ret|].
    apply keeps_cache_bind; [apply keeps_cache_find_program|].
    intros play_id. destruct (negb (truthy play_id)); [apply keeps_cache_ret|].
    apply keeps_cache_bind; [apply keeps_cache_http|]. intros resp. apply keeps_cache_ret.
Qed.

Lemma requested_dates_app (a b : list request) :
  requested_dates (a ++ b) = (requested_dates a ++ requested_dates b)%list.
Proof.
  induction a as [|r a IH]; [reflexivity|].
  destruct r; cbn [app requested_dates]; rewrite IH; reflexivity.
Qed.

Ltac sends_done := split; [try reflexivity | split; cbn; lia].

Lemma sends_ret {A : Type} (a : A) : sends 0 0 (ret a).
Proof.
  intros w. exists []. cbn. rewrite app_nil_r. sends_done.
Qed.

Lemma sends_lift {A : Type} (o : outcome A) : sends 0 0 (lift o).
Proof.
  intros w. exists []. cbn. rewrite app_nil_r. sends_done.
Qed.

Lemma sends_weaken {A : Type} (n k n' k' : nat) (m : M A) :
  (n <= n')%nat -> (k <= k')%nat -> sends n k m -> sends n' k' m.
Proof.
  intros Hn Hk H w. destruct (H w) as (extra & E & Ln & Lk).
  exists extra. split; [exact E | split; lia].
Qed.

Lemma sends_bind {A B : Type} (n1 k1 n2 k2 : nat) (m : M A) (f : A -> M B) :
  sends n1 k1 m -> (forall a, sends n2 k2 (f a)) ->
  sends (n1 + n2) (k1 + k2) (bind m f).
Proof.
  intros Hm Hf w. unfold bind.
  destruct (Hm w) as (e1 & E1 & Ln1 & Lk1).
  destruct (m w) as [[a|] w1]; cbn [snd] in *.
  - destruct (Hf a w1) as (e2 & E2 & Ln2 & Lk2).
    exists (e1 ++ e2)%list. rewrite E2, E1, <- app_assoc.
    rewrite requested_dates_app, !length_app. split; [reflexivity | split; lia].
  - exists e1. split; [exact E1 | split; lia].
Qed.

Lemma sends_http (h : host) (r : request) :
  sends 1 (List.length (requested_dates [r])) (http h r).
Proof.
  intros w. exists [r]. sends_done.
Qed.

Lemma sends_get_prima_token (h : host) : sends 1 0 (get_prima_token h).
Proof.
  intros w. unfold get_prima_token, bind, load_token, time_time, lift.
  destruct (cached_valid (cached_record w) (clock w)) as [[|]|].
  - exists []. rewrite app_nil_r.
    destruct (subscript (cached_record w) "token"); sends_done.
  - destruct (String.eqb (prima_email h) "" || String.eqb (prima_password h) "").
    + exists []. cbn. rewrite app_nil_r. sends_done.
    + unfold http. cbn [fst snd].
      destruct (login_token _).
      * exists [SessionCreate (prima_email h) (prima_password h)].
        unfold save_token. destruct (writable h); sends_done.
      * exists [SessionCreate (prima_email h) (prima_password h)].
        sends_done.
  - exists []. cbn. rewrite app_nil_r. sends_done.
Qed.

Lemma sends_get_epg_channels (h : host) : sends 2 0 (get_epg_channels h).
Proof.
  unfold get_epg_channels.
  apply (sends_bind 1 0 1 0); [apply sends_get_prima_token|].
  intros token. destruct (negb (truthy token)).
  - apply (sends_weaken 0 0); [lia | lia | apply sends_ret].
  - apply (sends_bind 1 0 0 0); [apply (sends_http h (ChannelList token))|].
    intros resp. apply sends_ret.
Qed.

Lemma sends_get_epg_program (h : host) (cid : value) (o : Z) :
  sends 2 1 (get_epg_program h cid o).
Proof.
  unfold get_epg_program.
  apply (sends_bind 1 0 1 1); [apply sends_get_prima_token|].
  intros token. destruct (negb (truthy token)).
  - apply (sends_weaken 0 0); [lia | lia | apply sends_ret].
  - apply (sends_bind 0 0 1 1).
    + intros w. exists []. cbn. rewrite app_nil_r. sends_done.
    + intros now. destruct (add_timedelta now (o * 86400)).
      * apply (sends_bind 1 1 0 0); [apply sends_http|]. intros resp. apply sends_ret.
      * apply (sends_weaken 0 0); [lia | lia | apply sends_ret].
Qed.

Lemma sends_scan_days (h : host) (cid : value) (T : Z) (offsets : list Z) :
  sends (2 * List.length offsets) (List.length offsets) (scan_days h cid T offsets).
Proof.
  induction offsets as [|o rest IH]; cbn [scan_days].
  - apply sends_ret.
  - apply (sends_weaken (2 + 2 * List.length rest) (1 + List.length rest));
      [cbn [List.length]; lia | cbn [List.length]; lia |].
    apply sends_bind; [apply sends_get_epg_program|].
    intros programs. destruct (negb (truthy programs)); [exact IH|].
    apply (sends_bind 0 0); [apply sends_lift|].
    intros [|v]; [exact IH|].
    apply (sends_weaken 0 0); [lia | lia | apply sends_ret].
Qed.

(** X5. One search fetches at most eight listings, and one catchup
    resolution sends at most twenty requests in all: a login before each
    of its ten uses of the token at worst, the channel list, eight
    listings and the play request.  Requests already sent stay as they
    are. *)
Theorem requests_are_bounded (h : host) (channel_id : string) (cid : value) (ts : Z) :
  sends 16 8 (find_program_by_timestamp h cid ts) /\
  sends 20 8 (get_catchup_stream h channel_id ts).
Proof.
  assert (Hf : forall c, sends 16 8 (find_program_by_timestamp h c ts)).
  { intros c. unfold find_program_by_timestamp.
    apply (sends_bind 0 0 16 8); [apply sends_lift|].
    intros T. apply (sends_scan_days h c T (range_down 0 (-8) (-1))). }
  split; [apply Hf|].
  unfold get_catchup_stream.
  apply (sends_bind 1 0 19 8); [apply sends_get_prima_token|].
  intros token. destruct (negb (truthy token)).
  { apply (sends_weaken 0 0); [lia | lia | apply sends_ret]. }
  apply (sends_bind 2 0 17 8); [apply sends_get_epg_channels|].
  intros channels. destruct (negb (truthy channels)).
  { apply (sends_weaken 0 0); [lia | lia | apply sends_ret]. }
  apply (sends_bind 0 0 17 8); [apply sends_lift|].
  intros c. destruct (negb (truthy c)).
  { apply (sends_weaken 0 0); [lia | lia | apply sends_ret]. }
  apply (sends_bind 16 8 1 0); [apply Hf|].
  intros play_id. destruct (negb (truthy play_id)).
  { apply (sends_weaken 0 0); [lia | lia | apply sends_ret]. }
  apply (sends_bind 1 0 0 0); [apply (sends_http h (Play token play_id))|].
  intros resp. apply sends_ret.
Qed.

(** ** What is read from the provider's answers *)

(** X6. A login succeeds exactly when the decoded body is an object with
    a key [accessToken] holding an object with a key [value]: that value
    is the token.  Any other body, and any failure of the call, gives no
    token. *)
Theorem login_token_characterised (resp : option value) (token : value) :
  login_token resp = Some token <->
  exists d a,
    resp = Some (VDict d) /\
    lookup "accessToken" d = Some (VDict a) /\
    lookup "value" a = Some token.
Proof.
  split.
  - unfold login_token. intros H.
    destruct resp as [data|]; [|discriminate].
    destruct data; cbn [of_response obind py_in subscript try_except] in H;
      try discriminate.
    + destruct (contains "accessToken" s); discriminate.
    + destruct (existsb (is_str "accessToken") l); discriminate.
    + destruct (lookup "accessToken" d) as [a|] eqn:Ha; [|discriminate].
      cbn [obind] in H.
      destruct a; try discriminate. cbn [subscript] in H.
      destruct (lookup "value" d0) as [v|] eqn:Hv; [|discriminate].
      cbn [obind] in H. inversion H; subst v.
      exists d, d0. repeat split; assumption.
  - intros (d & a & -> & Ha & Hv).
    unfold login_token. cbn [of_response obind py_in subscript].
    rewrite Ha. cbn [obind subscript]. rewrite Hv. reflexivity.
Qed.

Lemma forallb_is_dict_strs {A : Type} (f : A -> string) (l : list A) :
  forallb is_dict (map (fun x => VStr (f x)) l) = true -> l = [].
Proof.
  destruct l; [reflexivity | discriminate].
Qed.

Lemma channels_of_response_shape (resp : option value) :
  truthy (channels_of_response resp) = true ->
  exists l, channels_of_response resp = VList l /\ l <> [] /\ forallb is_dict l = true.
Proof.
  unfold channels_of_response. intros H.
  destruct resp as [data|]; [|discriminate].
  destruct data; cbn [of_response obind py_in subscript try_except] in H |- *;
    try discriminate.
  - destruct (contains "result" s); discriminate.
  - destruct (existsb (is_str "result") l); discriminate.
  - destruct (lookup "result" d) as [r|]; [|discriminate].
    cbn [obind] in H |- *.
    destruct r; cbn [py_in obind subscript try_except] in H |- *; try discriminate.
    + destruct (contains "data" s); discriminate.
    + destruct (existsb (is_str "data") l); discriminate.
    + destruct (lookup "data" d0) as [channels|]; [|discriminate].
      cbn [obind] in H |- *.
      destruct channels; cbn [py_len py_iter obind try_except] in H |- *;
        try discriminate.
      * destruct (forallb is_dict _) eqn:Hf; [|discriminate].
        apply forallb_is_dict_strs in Hf.
        destruct s; [cbn in H; discriminate H | discriminate Hf].
      * destruct (forallb is_dict l) eqn:Hf; [|discriminate].
        cbn [try_except] in H |- *. exists l.
        split; [reflexivity|]. split; [|exact Hf].
        intros ->. discriminate.
      * destruct (forallb is_dict _) eqn:Hf; [|discriminate].
        apply forallb_is_dict_strs in Hf. subst d1. discriminate.
Qed.

(** X7. What [get_epg_channels] gives to the resolution is [None] (or
    something empty) or a non-empty list whose items are all dicts, so
    the [ch.get] of the resolution loop always finds a dict. *)
Theorem get_epg_channels_shape (h : host) (w w' : world) (channels : value) :
  get_epg_channels h w = (Ret channels, w') ->
  truthy channels = true ->
  exists l, channels = VList l /\ l <> [] /\ forallb is_dict l = true.
Proof.
  unfold get_epg_channels, bind. intros H Ht.
  destruct (get_prima_token h w) as [[token|] w1]; [|discriminate].
  destruct (negb (truthy token)).
  - inversion H; subst. discriminate.
  - unfold http, ret in H. inversion H; subst channels. clear H.
    apply channels_of_response_shape. exact Ht.
Qed.

Lemma programs_of_response_shape (resp : option value) (programs : value) :
  programs_of_response resp = programs ->
  truthy programs = true ->
  (exists n, py_len programs = Ret n /\ 0 < n) /\
  exists d r cd rest,
    resp = Some (VDict d) /\
    lookup "result" d = Some (VDict r) /\
    lookup "data" r = Some (VList (VDict cd :: rest)) /\
    lookup "items" cd = Some programs.
Proof.
  unfold programs_of_response. intros H Ht. rewrite <- H in Ht.
  destruct resp as [data|]; [|discriminate].
  destruct data; cbn [of_response obind py_in subscript try_except] in H, Ht;
    try discriminate.
  { destruct (contains "result" s); discriminate. }
  { destruct (existsb (is_str "result") l); discriminate. }
  destruct (lookup "result" d) as [r|] eqn:Hr; [|discriminate].
  cbn [obind] in H, Ht.
  destruct r; cbn [py_in obind subscript try_except] in H, Ht; try discriminate.
  { destruct (contains "data" s); discriminate. }
  { destruct (existsb (is_str "data") l); discriminate. }
  destruct (lookup "data" d0) as [dd|] eqn:Hd; [|discriminate].
  cbn [obind] in H, Ht.
  destruct dd; cbn [py_len obind try_except] in H, Ht; try discriminate.
  { destruct (0 <? Z.of_nat (String.length s)); [|discriminate].
    cbn [first_item] in H, Ht.
    destruct s as [|c s']; [discriminate|]. cbn [obind py_in] in H, Ht.
    destruct (contains "items" (String c "")) eqn:Hc; [|discriminate].
    discriminate. }
  2:{ destruct (0 <? Z.of_nat (List.length d1)); discriminate. }
  destruct (0 <? Z.of_nat (List.length l)); [|discriminate].
  cbn [first_item] in H, Ht.
  destruct l as [|channel_data rest]; [discriminate|]. cbn [obind] in H, Ht.
  destruct channel_data; cbn [py_in obind subscript try_except] in H, Ht;
    try discriminate.
  { destruct (contains "items" s); discriminate. }
  { destruct (existsb (is_str "items") l); discriminate. }
  destruct (lookup "items" d1) as [items|] eqn:Hi; [|discriminate].
  cbn [obind] in H, Ht.
  destruct (py_len items) as [n|] eqn:Hn; [|discriminate].
  cbn [obind try_except] in H, Ht. subst items.
  split.
  - destruct programs; try discriminate; cbn [py_len] in *; eexists; (split; [reflexivity|]).
    + destruct s; [discriminate | cbn [String.length]; lia].
    + destruct l; [discriminate | cbn [List.length]; lia].
    + destruct d2; [discriminate | cbn [List.length]; lia].
  - exists d, d0, d1, rest. repeat split; assumption.
Qed.

(** X8. A listing that [get_epg_program] returns and that is not empty
    is what the answer to a listing request for that channel holds under
    [items] in the first entry of [result.data]; it is text, a list or a
    dict, so taking its length at line 366 cannot fail. *)
Theorem get_epg_program_shape (h : host) (cid : value) (o : Z) (w w' : world)
    (programs : value) :
  get_epg_program h cid o w = (Ret programs, w') ->
  truthy programs = true ->
  (exists n, py_len programs = Ret n /\ 0 < n) /\
  exists token date_str now d r cd rest,
    truthy token = true /\
    respond h (ProgramBulkList token cid date_str) now = Some (VDict d) /\
    lookup "result" d = Some (VDict r) /\
    lookup "data" r = Some (VList (VDict cd :: rest)) /\
    lookup "items" cd = Some programs.
Proof.
  unfold get_epg_program, bind. intros H Ht.
  destruct (get_prima_token h w) as [[token|] w1]; [|discriminate].
  destruct (truthy token) eqn:Htok; cbn [negb] in H.
  2:{ inversion H; subst. discriminate. }
  unfold dt_now in H.
  destruct (add_timedelta _ _) as [target_date|].
  2:{ inversion H; subst. discriminate. }
  unfold http, ret in H. inversion H as [[Hp Hw]]. clear H.
  destruct (programs_of_response_shape _ programs Hp Ht) as [Hlen (d & r & cd & rest & Hresp & Hr & Hd & Hi)].
  rewrite Hp. split; [exact Hlen|].
  exists token, (strftime_date target_date), (clock w1), d, r, cd, rest.
  repeat split; assumption.
Qed.

(** ** The search, at its edges *)

Lemma covering_result_none_or_truthy (d : list (string * value)) :
  covering_result d = VNone \/ truthy (covering_result d) = true.
Proof.
  unfold covering_result.
  destruct (truthy (dict_get d "isPlayable" (VBool false))); [|left; reflexivity].
  cbn [andb].
  destruct (truthy (py_or (dict_get d "playId" VNone) (dict_get d "id" VNone))) eqn:H;
    [right; exact H | left; reflexivity].
Qed.

Lemma check_program_return (program : value) (T : Z) (v : value) :
  check_program program T = Ret (Return v) ->
  exists d, program = VDict d /\ v = covering_result d.
Proof.
  destruct program; try discriminate.
  unfold check_program. lazy zeta.
  destruct (negb (truthy (start_field d)) || negb (truthy (end_field d)));
    [discriminate|].
  destruct (py_slice 19 (start_field d)); [|discriminate]. cbn [obind].
  destruct (py_slice 19 (end_field d)); [|discriminate]. cbn [obind].
  destruct (strptime a); [|discriminate]. cbn [obind].
  destruct (strptime a0); [|discriminate]. cbn [obind].
  destruct ((a1 <=? T) && (T <=? a2)); [|discriminate].
  intros H. inversion H. exists d. split; reflexivity.
Qed.

Lemma scan_programs_return (programs : list value) (T : Z) (v : value) :
  scan_programs programs T = Return v ->
  exists d, In (VDict d) programs /\ v = covering_result d.
Proof.
  induction programs as [|p rest IH]; [discriminate|].
  cbn [scan_programs].
  destruct (check_program p T) as [[|v0]|] eqn:Hc; cbn [try_except].
  - intros H. destruct (IH H) as (d & Hin & Hv). exists d. split; [right|]; assumption.
  - intros H. inversion H; subst v0.
    destruct (check_program_return p T v Hc) as (d & -> & Hv).
    exists d. split; [left; reflexivity | exact Hv].
  - intros H. destruct (IH H) as (d & Hin & Hv). exists d. split; [right|]; assumption.
Qed.

Lemma scan_day_return (o : Z) (programs : value) (T : Z) (v : value) :
  scan_day o programs T = Ret (Return v) ->
  exists d, v = covering_result d.
Proof.
  unfold scan_day.
  destruct (py_len programs); [|discriminate]. cbn [obind].
  destruct (if o =? 0 then first_item programs else Ret VNone); [|discriminate].
  cbn [obind].
  destruct (py_iter programs) as [items|]; [|discriminate]. cbn [obind].
  intros H. inversion H as [Hs].
  destruct (scan_programs_return items T v Hs) as (d & _ & Hv). exists d. exact Hv.
Qed.

Lemma scan_days_return (h : host) (cid : value) (T : Z) (offsets : list Z) :
  forall w w' v,
    scan_days h cid T offsets w = (Ret v, w') ->
    v = VNone \/ truthy v = true.
Proof.
  induction offsets as [|o rest IH]; intros w w' v; cbn [scan_days].
  - intros H. inversion H. left. reflexivity.
  - unfold bind at 1.
    destruct (get_epg_program h cid o w) as [[programs|] w1]; [|discriminate].
    destruct (negb (truthy programs)); [apply IH|].
    unfold bind, lift.
    destruct (scan_day o programs T) as [[|v0]|] eqn:Hs; [apply IH | | discriminate].
    intros H. inversion H; subst v0.
    destruct (scan_day_return o programs T v Hs) as (d & ->).
    apply covering_result_none_or_truthy.
Qed.

(** X9. What the search returns is [None] or a play id that counts as
    true: the test [if not play_id] of the caller sets apart exactly the
    searches that found nothing to play. *)
Theorem find_program_returns_none_or_play_id
    (h : host) (cid : value) (ts : Z) (w w' : world) (v : value) :
  find_program_by_timestamp h cid ts w = (Ret v, w') ->
  v = VNone \/ truthy v = true.
Proof.
  unfold find_program_by_timestamp, bind at 1, lift.
  destruct (local_target ts) as [T|]; [|discriminate].
  apply scan_days_return.
Qed.

(** X10. A listing that is a non-empty dict makes the search raise when
    it is the listing of the first day, whose first item line 370 takes
    for the log, and is passed without a program on any other day; a
    listing that is text is passed without a program on every day. *)
Theorem listing_that_is_no_list (o T : Z) (kv : string * value)
    (d : list (string * value)) (c : ascii) (s : string) :
  scan_day 0 (VDict (kv :: d)) T = Raise /\
  (o <> 0 -> scan_day o (VDict (kv :: d)) T = Ret Continue) /\
  scan_day o (VStr (String c s)) T = Ret Continue.
Proof.
  assert (Hkeys : forall l : list (string * value),
            scan_programs (map (fun kv => VStr (fst kv)) l) T = Continue).
  { induction l as [|x l IH]; [reflexivity | exact IH]. }
  assert (Hchars : forall l : list ascii,
            scan_programs (map (fun c => VStr (String c EmptyString)) l) T = Continue).
  { induction l as [|x l IH]; [reflexivity | exact IH]. }
  split; [reflexivity|]. split.
  - intros Ho. unfold scan_day. cbn [py_len obind py_iter].
    replace (o =? 0) with false by (symmetry; apply Z.eqb_neq; exact Ho).
    cbn [obind]. rewrite Hkeys. reflexivity.
  - unfold scan_day. cbn [py_len obind py_iter first_item].
    destruct (o =? 0); cbn [obind]; rewrite Hchars; reflexivity.
Qed.

(** X11. A target instant outside the years 1 to 9999, or in the last
    hour of the year 9999, makes the search raise at once: no listing is
    fetched and the world is left as it was. *)
Theorem target_out_of_range_raises (h : host) (cid : value) (ts : Z) (w : world) :
  in_datetime_range ts = false \/ in_datetime_range (ts + 3600) = false ->
  find_program_by_timestamp h cid ts w = (Raise, w).
Proof.
  intros H.
  unfold find_program_by_timestamp, bind, lift, local_target, utcfromtimestamp,
    add_timedelta.
  destruct H as [H | H].
  - rewrite H. reflexivity.
  - destruct (in_datetime_range ts); [|reflexivity]. cbn [obind].
    change (1 * 3600) with 3600. rewrite H. reflexivity.
Qed.

Lemma take_str_app (s t : string) :
  starts_char t = true ->
  take_str (char_count s) (s ++ t) = s.
Proof.
  intros Ht. induction s as [|c s IH]; cbn [append char_count take_str].
  - destruct t as [|x t']; [reflexivity|].
    cbn [starts_char] in Ht. cbn [take_str].
    apply negb_true_iff in Ht. rewrite Ht. reflexivity.
  - destruct (is_continuation c); cbn [take_str]; rewrite IH; reflexivity.
Qed.

Lemma take_str_all (s : string) : take_str (char_count s) s = s.
Proof.
  induction s as [|c s IH]; cbn [char_count take_str]; [reflexivity|].
  destruct (is_continuation c); cbn [take_str]; rewrite IH; reflexivity.
Qed.

(** X12. Only the first 19 characters of a start or end time are read:
    whatever text follows a text of 19 characters (a fraction of a second,
    a zone offset) changes nothing to the instant the text is parsed
    to. *)
Theorem time_text_read_up_to_19_characters (s suffix : string) :
  char_count s = 19%nat ->
  starts_char suffix = true ->
  parse_time (VStr (s ++ suffix)) = parse_time (VStr s).
Proof.
  intros H Hs. unfold parse_time. cbn [py_slice obind strptime].
  rewrite <- H, (take_str_app s suffix Hs), take_str_all. reflexivity.
Qed.

(** ** The resolution of the channel, at its edges *)

Lemma match_channels_sound (names : list string) (channels : list value) :
  forall acc v,
    match_channels names channels acc = Ret v ->
    truthy v = true ->
    truthy acc = false ->
    exists d t,
      In (VDict d) channels /\
      dict_get d "title" (VStr "") = VStr t /\
      name_in_title names (lower t) = true /\
      v = dict_get d "id" (VStr "").
Proof.
  induction channels as [|ch rest IH]; intros acc v H Hv Hacc.
  - cbn in H. inversion H; subst. congruence.
  - cbn [match_channels] in H.
    destruct ch; try discriminate. cbn [py_get obind] in H.
    destruct (dict_get d "title" (VStr "")) eqn:Ht; try discriminate.
    cbn [py_lower obind] in H.
    destruct (name_in_title names (lower s)) eqn:Hm.
    + destruct (truthy (dict_get d "id" (VStr ""))) eqn:Hid.
      * inversion H; subst v. exists d, s.
        split; [left; reflexivity|]. repeat split; assumption.
      * destruct (IH _ v H Hv Hid) as (d' & t & Hin & Ht' & Hm' & Hv').
        exists d', t. split; [right; exact Hin|]. repeat split; assumption.
    + rewrite Hacc in H.
      destruct (IH _ v H Hv Hacc) as (d' & t & Hin & Ht' & Hm' & Hv').
      exists d', t. split; [right; exact Hin|]. repeat split; assumption.
Qed.

(** X13. An id that the resolution returns is never made up: it is the
    id of a channel of the provider's list whose lower-cased title
    contains one of the fragments looked for. *)
Theorem resolve_channel_sound (channel_id : string) (channels : list value) (v : value) :
  resolve_channel channel_id (VList channels) = Ret v ->
  truthy v = true ->
  exists d t,
    In (VDict d) channels /\
    dict_get d "title" (VStr "") = VStr t /\
    title_matches channel_id t /\
    v = dict_get d "id" (VStr "").
Proof.
  unfold resolve_channel. cbn [py_iter obind]. intros H Hv.
  destruct (match_channels_sound _ channels VNone v H Hv eq_refl)
    as (d & t & Hin & Ht & Hm & Hid).
  exists d, t. repeat split; try assumption.
  apply name_in_title_matches. exact Hm.
Qed.


(** ** The archive stream, at its edges *)

Lemma replace_lq_no_prefix (c : ascii) (r : string) :
  String.prefix "_lq" (String c r) = false ->
  replace_lq (String c r) = String c (replace_lq r).
Proof.
  intros H.
  destruct (ascii_dec "_" c) as [<- | Hc].
  - destruct r as [|c2 r2]; [reflexivity|].
    destruct (ascii_dec "l" c2) as [<- | Hc2].
    + destruct r2 as [|c3 r3]; [reflexivity|].
      destruct (ascii_dec "q" c3) as [<- | Hc3].
      { assert (Ht : String.prefix "_lq" (String "_" (String "l" (String "q" r3))) = true)
          by (apply String.prefix_correct; destruct r3; reflexivity).
        congruence. }
      destruct c3 as [[] [] [] [] [] [] [] []];
        first [reflexivity | exfalso; apply Hc3; reflexivity].
    + destruct c2 as [[] [] [] [] [] [] [] []];
        first [reflexivity | exfalso; apply Hc2; reflexivity].
  - destruct c as [[] [] [] [] [] [] [] []];
      first [reflexivity | exfalso; apply Hc; reflexivity].
Qed.

Lemma prefix_lq_inv (c : ascii) (r : string) :
  String.prefix "_lq" (String c r) = true ->
  exists r3, String c r = String "_" (String "l" (String "q" r3)).
Proof.
  intros H. apply String.prefix_correct in H. cbn in H.
  destruct r as [|c2 [|c3 r3]]; cbn in H; try discriminate.
  inversion H; subst. exists r3. reflexivity.
Qed.

(** X15. A url in which ["_lq"] does not occur is handed over as it is,
    and removing the marker never makes a url longer. *)
Theorem url_without_marker_is_kept (s : string) :
  (contains "_lq" s = false -> replace_lq s = s) /\
  (String.length (replace_lq s) <= String.length s)%nat.
Proof.
  split.
  - induction s as [|c r IH]; [reflexivity|].
    cbn [contains]. intros H. apply orb_false_iff in H. destruct H as [Hp Hr].
    rewrite (replace_lq_no_prefix c r Hp), (IH Hr). reflexivity.
  - assert (H : forall n s', (String.length s' <= n)%nat ->
                (String.length (replace_lq s') <= String.length s')%nat).
    { induction n as [|n IH]; intros s' Hn.
      - destruct s'; [cbn; lia | cbn in Hn; lia].
      - destruct s' as [|c r]; [cbn; lia|].
        destruct (String.prefix "_lq" (String c r)) eqn:Hp.
        + destruct (prefix_lq_inv c r Hp) as (r3 & E). inversion E; subst c r.
          change (replace_lq (String "_" (String "l" (String "q" r3))))
            with (replace_lq r3).
          cbn [String.length] in *.
          assert (String.length (replace_lq r3) <= String.length r3)%nat by (apply IH; lia).
          lia.
        + rewrite (replace_lq_no_prefix c r Hp). cbn [String.length] in *.
          assert (String.length (replace_lq r) <= String.length r)%nat by (apply IH; lia).
          lia. }
    apply (H (String.length s)). apply le_n.
Qed.


(** X17. A failure of the play request, and an entry of [streamInfos]
    that is not a dict met before any HLS entry with a url, end in the
    stream-request error, whatever the entries after it. *)
Theorem broken_stream_answer_is_an_error (d : list (string * value))
    (before after : list value) (x : value) :
  stream_of_response None = Error StreamRequestError /\
  (lookup "streamInfos" d = Some (VList (before ++ x :: after)) ->
   forallb gone_past before = true ->
   is_dict x = false ->
   stream_of_response (Some (VDict d)) = Error StreamRequestError).
Proof.
  split; [reflexivity|].
  intros Hl Hb Hx.
  unfold stream_of_response. cbn [of_response obind py_in subscript].
  rewrite Hl. cbn [obind]. rewrite truthy_app_cons.
  cbn [py_len py_iter obind].
  rewrite (prefer_hls_gone_past before _ Hb).
  destruct x; try discriminate; reflexivity.
Qed.

(** ** The catchup resolution as a whole *)

(** X18. A descriptor is returned only at the end of the whole
    pipeline: the token is the one [get_prima_token] returned at the
    start, the channel id the one resolved from the list of
    [get_epg_channels], the play id the one the search returned for that
    channel, each counting as true; the last request sent is the play
    request for that play id with that token, and the url is the one
    selected from its answer. *)
Theorem descriptor_comes_from_play_request
    (h : host) (channel_id : string) (ts : Z) (w w' : world) (url : string) :
  get_catchup_stream h channel_id ts w = (Ret (Descriptor url), w') ->
  exists token w1 channels w2 cid play_id w3,
    get_prima_token h w = (Ret token, w1) /\ truthy token = true /\
    get_epg_channels h w1 = (Ret channels, w2) /\ truthy channels = true /\
    resolve_channel channel_id channels = Ret cid /\ truthy cid = true /\
    find_program_by_timestamp h cid ts w2 = (Ret play_id, w3) /\
    truthy play_id = true /\
    sent w' = (sent w3 ++ [Play token play_id])%list /\
    token_file w' = token_file w3 /\
    stream_of_response (respond h (Play token play_id) (clock w3)) = Descriptor url.
Proof.
  unfold get_catchup_stream, bind at 1. intros H.
  destruct (get_prima_token h w) as [[token|] w1] eqn:Hget; [|discriminate].
  destruct (truthy token) eqn:Htok; cbn [negb] in H; [|discriminate].
  unfold bind at 1 in H.
  destruct (get_epg_channels h w1) as [[channels|] w2] eqn:Hchs; [|discriminate].
  destruct (truthy channels) eqn:Hch; cbn [negb] in H; [|discriminate].
  unfold bind at 1, lift in H.
  destruct (resolve_channel channel_id channels) as [cid|] eqn:Hres; [|discriminate].
  destruct (truthy cid) eqn:Hcid; cbn [negb] in H; [|discriminate].
  unfold bind at 1 in H.
  destruct (find_program_by_timestamp h cid ts w2) as [[play_id|] w3] eqn:Hfind;
    [|discriminate].
  destruct (truthy play_id) eqn:Hpid; cbn [negb] in H; [|discriminate].
  unfold bind, http, ret in H. inversion H as [[Hu Hw]].
  exists token, w1, channels, w2, cid, play_id, w3.
  repeat (split; [first [assumption | reflexivity]|]). reflexivity.
Qed.

(** ** Live streams *)

(** X19. For CNN Prima News the live stream is the url of the first
    entry of [streamInfos], whatever its type and even when the url is
    empty, with ["_lq"] removed; an absent or empty [streamInfos] gives
    [None], not an error; a failure of the request gives the error
    dict. *)
Theorem cnn_stream_is_first_entry (d : list (string * value)) :
  (forall sd rest u,
      lookup "streamInfos" d = Some (VList (VDict sd :: rest)) ->
      lookup "url" sd = Some (VStr u) ->
      cnn_stream_of_response (Some (VDict d)) = LiveStream (replace_lq u)) /\
  ((lookup "streamInfos" d = None \/
    exists v, lookup "streamInfos" d = Some v /\ truthy v = false) ->
   cnn_stream_of_response (Some (VDict d)) = LiveNone) /\
  cnn_stream_of_response None = LiveError.
Proof.
  split; [|split; [|reflexivity]].
  - intros sd rest u Hl Hu.
    unfold cnn_stream_of_response. cbn [of_response obind py_in subscript].
    rewrite Hl. cbn [obind truthy first_item subscript]. rewrite Hu. reflexivity.
  - intros H.
    unfold cnn_stream_of_response. cbn [of_response obind py_in subscript].
    destruct H as [H | (v & H & Hv)]; rewrite H; cbn [obind truthy]; try rewrite Hv;
      reflexivity.
Qed.

(** X20. Every key of the alias table of the catchup resolution other
    than [cnnprimanews] has a live stream: the relay url ending with the
    first fragment of its aliases, for which no token is asked; so has
    every short code of [CHANNELS]. *)
Theorem catchup_keys_have_a_relay_stream (h : host) (w : world) (channel_id : string) :
  (forall names,
      assoc channel_id channel_name_map = Some names ->
      channel_id <> "cnnprimanews"%string ->
      exists c,
        hd_error names = Some c /\
        get_live_stream h channel_id w =
        (Ret (LiveStream ("http://p.6f.sk/iprima.php?ch=" ++ c)), w)) /\
  (In channel_id CHANNELS ->
   get_live_stream h channel_id w =
   (Ret (LiveStream ("http://p.6f.sk/iprima.php?ch=" ++ channel_id)), w)).
Proof.
  split.
  - intros names Ha Hn. unfold channel_name_map in Ha. cbn [assoc] in Ha.
    repeat match type of Ha with
           | (if String.eqb channel_id ?k then _ else _) = _ =>
               destruct (String.eqb_spec channel_id k) as [-> | _];
               [inversion Ha; subst names; try congruence;
                eexists; split; reflexivity |]
           end.
    discriminate.
  - intros Hin. cbn in Hin.
    repeat (destruct Hin as [<- | Hin]; [reflexivity|]).
    contradiction.
Qed.

(** X21. For a key other than the two of CNN Prima News, the live
    stream is the relay url of one of the eight short codes, the key
    being that code or ["prima"] followed by it, or it is [None]; the
    token file and the requests sent to the provider are left as they
    were. *)
Theorem live_stream_is_relay_or_none (h : host) (w w' : world) (channel_id : string)
    (r : live_result) :
  channel_id <> "cnn"%string ->
  channel_id <> "cnnprimanews"%string ->
  get_live_stream h channel_id w = (Ret r, w') ->
  w' = w /\
  (r = LiveNone \/
   exists c,
     In c CHANNELS /\
     (channel_id = c \/ channel_id = ("prima" ++ c)%string) /\
     r = LiveStream ("http://p.6f.sk/iprima.php?ch=" ++ c)).
Proof.
  intros H1 H2. unfold get_live_stream.
  replace (String.eqb channel_id "cnn") with false
    by (symmetry; apply String.eqb_neq; exact H1).
  replace (String.eqb channel_id "cnnprimanews") with false
    by (symmetry; apply String.eqb_neq; exact H2).
  cbn [orb]. unfold channel_map. cbn [assoc_str].
  repeat match goal with
         | |- context [if String.eqb channel_id ?k then _ else _] =>
             destruct (String.eqb_spec channel_id k) as [-> | _];
             [intros H; inversion H; split; [reflexivity|]; right;
              eexists; split; [|split; [|reflexivity]];
              [cbn; tauto | first [left; reflexivity | right; reflexivity]] |]
         end.
  destruct (in_strings channel_id CHANNELS) eqn:Hin; cbn [negb];
    intros H; inversion H; split; try reflexivity.
  - right. exists channel_id. split; [|split; [left; reflexivity | reflexivity]].
    unfold in_strings in Hin. apply existsb_exists in Hin.
    destruct Hin as (x & Hx & E). apply String.eqb_eq in E. subst x. exact Hx.
  - left. reflexivity.
Qed.

(** ** Without a usable token *)

(** X22. A cached token that has not expired but counts as false (an
    empty text, [null]) is returned as it is: the catchup resolution
    then fails with the login-required error without trying to log in,
    whatever the credentials, until the record expires. *)
Theorem empty_cached_token_blocks_login (h : host) (channel_id : string) (ts : Z)
    (w : world) (token : value) (valid_to : Z) :
  cached_record w = token_record token valid_to ->
  clock w < valid_to ->
  truthy token = false ->
  get_prima_token h w = (Ret token, w) /\
  get_catchup_stream h channel_id ts w = (Ret (Error LoginRequired), w).
Proof.
  intros Hrec Hlt Ht.
  assert (Hg : get_prima_token h w = (Ret token, w)).
  { apply (get_prima_token_cached h w
             [("token"%string, token); ("valid_to"%string, VInt valid_to)] token).
    - rewrite Hrec, cached_valid_record. f_equal. apply Z.ltb_lt. exact Hlt.
    - exact Hrec.
    - reflexivity. }
  split; [exact Hg|].
  unfold get_catchup_stream, bind at 1. rewrite Hg, Ht. reflexivity.
Qed.

Lemma get_epg_program_without_token (h : host) (cid : value) (o : Z) (w : world) :
  get_prima_token h w = (Ret VNone, w) ->
  get_epg_program h cid o w = (Ret VNone, w).
Proof.
  intros H. unfold get_epg_program, bind. rewrite H. reflexivity.
Qed.

(** X23. When the test of the cache at lines 110-111 finds no valid
    token without raising (no record, a record without [token] or
    [valid_to], or a [valid_to] that is a number not greater than the
    current time) and the email or the password is empty, the search for
    a target instant that [datetime] can hold one hour later asks for no
    listing and returns [None], as if no program had been found, and
    [get_epg_program] returns [None] without sending anything: the lack
    of a token is not told apart from an empty guide. *)
Theorem search_without_token_finds_nothing (h : host) (cid : value) (ts : Z) (w : world) :
  prima_email h = EmptyString \/ prima_password h = EmptyString ->
  cached_record w = VNone \/
  (exists d, cached_record w = VDict d /\
     (lookup "token" d = None \/ lookup "valid_to" d = None \/
      exists v, lookup "valid_to" d = Some v /\ py_gt v (clock w) = Ret false)) ->
  in_datetime_range ts = true ->
  in_datetime_range (ts + 3600) = true ->
  (forall o, get_epg_program h cid o w = (Ret VNone, w)) /\
  find_program_by_timestamp h cid ts w = (Ret VNone, w).
Proof.
  intros Hc Hcache Hr1 Hr2.
  assert (Hv : cached_valid (cached_record w) (clock w) = Ret false).
  { destruct Hcache as [-> | (d & -> & Hd)]; [reflexivity|].
    unfold cached_valid. cbn [py_in obind subscript].
    destruct d as [|kv d']; [reflexivity|]. cbn [truthy].
    destruct Hd as [Hd | [Hd | (v & Hd & Hgt)]].
    - rewrite Hd. reflexivity.
    - rewrite Hd. destruct (lookup "token" (kv :: d')); reflexivity.
    - rewrite Hd. destruct (lookup "token" (kv :: d')); cbn [obind]; [exact Hgt | reflexivity]. }
  assert (HT : local_target ts = Ret (ts + 3600)).
  { unfold local_target, utcfromtimestamp, add_timedelta. rewrite Hr1. cbn [obind].
    change (1 * 3600) with 3600. rewrite Hr2. reflexivity. }
  assert (Hg : get_prima_token h w = (Ret VNone, w)).
  { rewrite (get_prima_token_fresh h w Hv).
    replace (String.eqb (prima_email h) "" || String.eqb (prima_password h) "") with true.
    - reflexivity.
    - symmetry. apply orb_true_iff.
      destruct Hc as [Hc | Hc]; rewrite Hc; [left | right]; reflexivity. }
  assert (Hs : forall offsets, scan_days h cid (ts + 3600) offsets w = (Ret VNone, w)).
  { induction offsets as [|o rest IH]; [reflexivity|].
    cbn [scan_days]. unfold bind.
    rewrite (get_epg_program_without_token h cid o w Hg). exact IH. }
  split; [intros o; apply get_epg_program_without_token; exact Hg|].
  rewrite (find_program_unfold h cid ts (ts + 3600) w HT). apply Hs.
Qed.



End Pipeline.

(* ================================================================== *)
(** * The properties on examples

    The examples are ASCII text, on which [ascii_unicode] gives what the
    Unicode database gives. *)

#[export] Existing Instance ascii_unicode.

Lemma interval_match_inclusive_witness :
  check_program (VDict half_hour_program) 1720006200 = Ret (Return (VStr "p123")) /\
  check_program (VDict half_hour_program) (1720006200 + 1800) = Ret (Return (VStr "p123")).
Proof.
  apply (interval_match_inclusive half_hour_program 1720006200 (1720006200 + 1800)).
  - reflexivity.
  - reflexivity.
  - lia.
Defined.




Lemma archive_stream_selection_witness :
  stream_of_response (Some (VDict (play_response (VList ([dash_entry] ++ VDict hls_entry :: [])))))
  = Descriptor "https://cdn.example/a.m3u8" /\
  stream_of_response (Some (VDict (play_response (VList [dash_entry]))))
  = Descriptor "https://cdn.example/a.mpd" /\
  exists f, stream_of_response (Some (VDict (play_response (VList [])))) = Error f.
Proof.
  split; [|split].
  - apply (proj1 (archive_stream_selection _) [dash_entry] hls_entry []
             "https://cdn.example/a_lq.m3u8"%string);
      try reflexivity.
    discriminate.
  - apply (proj1 (proj2 (archive_stream_selection _))
             [("type", VStr "DASH"); ("url", VStr "https://cdn.example/a_lq.mpd")]%string []
             "https://cdn.example/a_lq.mpd"%string);
      try reflexivity.
    discriminate.
  - apply (proj2 (proj2 (archive_stream_selection _))).
    right. exists (VList []). split; reflexivity.
Defined.

(** C8 as stated fails: the first entry tagged HLS has an empty url, and
    the descriptor carries the url of the second entry. *)
Lemma first_hls_entry_without_url_is_skipped :
  spec_selected_url streams_first_hls_without_url = VStr "" /\
  stream_of_response (Some (VDict (play_response (VList streams_first_hls_without_url))))
  = Descriptor "https://cdn.example/ch/master.m3u8".
Proof.
  split; reflexivity.
Qed.

Lemma get_prima_token_cached_or_fresh_witness :
  (exists d token valid_to,
      cached_record logged_in = VDict d /\ lookup "token" d = Some token /\
      lookup "valid_to" d = Some valid_to /\ py_gt valid_to (clock logged_in) = Ret true /\
      get_prima_token host_empty logged_in = (Ret token, logged_in)) /\
  (sent (snd (get_prima_token host_empty first_run))
   = (sent first_run ++ [SessionCreate "user@example.com" "secret"])%list /\
   login_token (respond host_empty (SessionCreate "user@example.com" "secret")
                  (clock first_run))
   = Some (VStr "fresh") /\
   (writable host_empty = true ->
    token_file (snd (get_prima_token host_empty first_run))
    = Some (token_record (VStr "fresh")
              (clock (snd (get_prima_token host_empty first_run)) + 7 * 3600))) /\
   (writable host_empty = false ->
    token_file (snd (get_prima_token host_empty first_run)) = token_file first_run)).
Proof.
  split.
  - apply (proj1 (get_prima_token_cached_or_fresh host_empty logged_in)). reflexivity.
  - apply (proj2 (get_prima_token_cached_or_fresh host_empty first_run)
             (VStr "fresh") (snd (get_prima_token host_empty first_run))).
    + reflexivity.
    + reflexivity.
    + discriminate.
Defined.

(** C4 as stated fails: the token file cannot be written, the login
    succeeds, and the token is returned though no record of it has been
    stored. *)
Lemma fresh_token_returned_without_being_stored :
  fst (get_prima_token host_without_storage first_run) = Ret (VStr "fresh") /\
  token_file (snd (get_prima_token host_without_storage first_run)) = None.
Proof.
  split; reflexivity.
Qed.

Lemma missing_credentials_without_network_witness :
  get_catchup_stream host_without_credentials "primacool" 1720000000 first_run
  = (Ret (Error LoginRequired), first_run).
Proof.
  apply (missing_credentials_without_network host_without_credentials "primacool"
           1720000000 first_run).
  - left. reflexivity.
  - reflexivity.
Defined.

(** C9 as stated fails: the email and the password are empty, the token
    file holds a record whose [valid_to] is text, so that there is no
    valid cached token, and the catchup resolution raises at the
    comparison of line 111 instead of failing with the
    missing-credentials error. *)
Lemma missing_credentials_with_foreign_cache_raises :
  prima_email host_without_credentials = EmptyString /\
  cached_valid (cached_record foreign_cache) (clock foreign_cache) <> Ret true /\
  get_catchup_stream host_without_credentials "primacool" 1720000000 foreign_cache
  = (Raise, foreign_cache) /\
  get_catchup_stream host_without_credentials "primacool" 1720000000 foreign_cache
  <> (Ret (Error LoginRequired), foreign_cache).
Proof.
  repeat split; try reflexivity; discriminate.
Qed.



Lemma first_covering_program_ends_scan_witness :
  find_program_by_timestamp host_unplayable (VStr "x") 1720002600 logged_in
  = (Ret (covering_result unplayable_program),
     snd (get_epg_program host_unplayable (VStr "x") 0 logged_in)) /\
  sent (snd (find_program_by_timestamp host_unplayable (VStr "x") 1720002600 logged_in))
  = sent (snd (get_epg_program host_unplayable (VStr "x") 0 logged_in)) /\
  covering_result unplayable_program = VNone.
Proof.
  refine (first_covering_program_ends_scan host_unplayable (VStr "x") 1720002600
            (1720002600 + 3600) [] 0 [-1; -2; -3; -4; -5; -6; -7] logged_in logged_in _
            (VList [VDict unplayable_program]) unplayable_program _ _ _ _ _).
  - reflexivity.
  - reflexivity.
  - apply days_miss_nil.
  - reflexivity.
  - exists [], [], 1720006200, (1720006200 + 1800).
    repeat split; try reflexivity; lia.
Defined.

Lemma unplayable_and_missing_reported_alike_witness :
  find_program_by_timestamp host_unplayable (VStr "x") 1720002600
    (snd (get_epg_channels host_unplayable logged_in))
  = (Ret VNone,
     snd (get_epg_program host_unplayable (VStr "x") 0
            (snd (get_epg_channels host_unplayable logged_in)))) /\
  get_catchup_stream host_unplayable "primacool" 1720002600 logged_in
  = (Ret (Error ProgramNotFound),
     snd (get_epg_program host_unplayable (VStr "x") 0
            (snd (get_epg_channels host_unplayable logged_in)))) /\
  message ProgramNotFound = "Program nebyl nalezen v archivu Prima+"%string.
Proof.
  refine (unplayable_and_missing_reported_alike host_unplayable "primacool" 1720002600
            (1720002600 + 3600) logged_in logged_in _ _ (VStr "cached") two_channels
            (VStr "x") _ _ _ _ _ _ _ _).
  - reflexivity.
  - reflexivity.
  - reflexivity.
  - reflexivity.
  - reflexivity.
  - reflexivity.
  - reflexivity.
  - left.
    exists [], 0, [-1; -2; -3; -4; -5; -6; -7],
      (snd (get_epg_channels host_unplayable logged_in)),
      (VList [VDict unplayable_program]), unplayable_program.
    split; [reflexivity|]. split; [apply days_miss_nil|]. split; [reflexivity|].
    split; [|reflexivity].
    exists [], [], 1720006200, (1720006200 + 1800).
    repeat split; try reflexivity; lia.
Defined.

(** C2 as stated fails: on one host the listing of the first day holds a
    program that covers the instant and cannot be replayed, on the other
    no listing holds any program, and the search and the catchup
    resolution return the same values on both. *)
Lemma unplayable_and_missing_not_distinguished :
  first_covering (VList [VDict unplayable_program]) unplayable_program (1720002600 + 3600) /\
  covering_result unplayable_program = VNone /\
  fst (find_program_by_timestamp host_unplayable (VStr "x") 1720002600 logged_in)
  = fst (find_program_by_timestamp host_empty (VStr "x") 1720002600 logged_in) /\
  fst (get_catchup_stream host_unplayable "primacool" 1720002600 logged_in)
  = Ret (Error ProgramNotFound) /\
  fst (get_catchup_stream host_empty "primacool" 1720002600 logged_in)
  = Ret (Error ProgramNotFound).
Proof.
  split.
  - exists [], [], 1720006200, (1720006200 + 1800).
    repeat split; try reflexivity; lia.
  - repeat split; reflexivity.
Qed.

(** C1 fails on the code. 1720000000 is 2024-07-03 09:46:40 UTC, in
    summer time, that is 11:46:40 in Prague; the program listed from
    11:30:00 to 12:00:00 is on air then.  The search compares the
    listing with 10:46:40, one hour after UTC, and does not find it. *)
Theorem summer_target_compared_at_winter_offset :
  prague_utcoffset 1720000000 = 2 * 3600 /\
  local_target 1720000000 = Ret (1720000000 + 1 * 3600) /\
  check_program (VDict half_hour_program) (1720000000 + prague_utcoffset 1720000000)
  = Ret (Return (VStr "p123")) /\
  check_program (VDict half_hour_program) (1720000000 + 1 * 3600) = Ret Continue /\
  fst (find_program_by_timestamp host_playable (VStr "x") 1720000000 logged_in) = Ret VNone /\
  fst (get_catchup_stream host_playable "primacool" 1720000000 logged_in)
  = Ret (Error ProgramNotFound).
Proof.
  repeat split; reflexivity.
Qed.

Lemma saved_token_is_reused_witness :
  get_prima_token host_empty second_run = (Ret (VStr "fresh"), second_run).
Proof.
  apply (saved_token_is_reused host_empty first_run
           (snd (get_prima_token host_empty first_run)) second_run (VStr "fresh")).
  - reflexivity.
  - reflexivity.
  - reflexivity.
  - discriminate.
  - reflexivity.
  - vm_compute. reflexivity.
Defined.

Lemma expired_token_is_not_reused_witness :
  (fst (get_prima_token host_empty expiring_now) = Ret (VStr "fresh") /\
   sent (snd (get_prima_token host_empty expiring_now))
   = [SessionCreate "user@example.com" "secret"]) /\
  get_prima_token host_without_credentials expiring_now = (Ret VNone, expiring_now).
Proof.
  split.
  - apply (proj1 (expired_token_is_not_reused host_empty expiring_now
                    [("token"%string, VStr "old"); ("valid_to"%string, VInt 1720000000)]
                    1720000000 eq_refl eq_refl (Z.le_refl _))); discriminate.
  - apply (proj2 (expired_token_is_not_reused host_without_credentials expiring_now
                    [("token"%string, VStr "old"); ("valid_to"%string, VInt 1720000000)]
                    1720000000 eq_refl eq_refl (Z.le_refl _))).
    left. reflexivity.
Defined.

Lemma foreign_valid_to_raises_witness :
  get_prima_token host_empty foreign_cache = (Raise, foreign_cache) /\
  get_catchup_stream host_empty "primacool" 1720000000 foreign_cache = (Raise, foreign_cache).
Proof.
  apply (foreign_valid_to_raises host_empty "primacool" 1720000000 foreign_cache
           [("token"%string, VStr "t"); ("valid_to"%string, VStr "2024-07-04")]
           (VStr "t") (VStr "2024-07-04")); reflexivity.
Defined.

Lemma token_file_stays_well_formed_witness :
  (exists v w', get_prima_token host_playable first_run = (Ret v, w')) /\
  cache_well_formed (snd (get_catchup_stream host_playable "primacool" 1720002600 first_run)).
Proof.
  apply (token_file_stays_well_formed host_playable "primacool" 1720002600 first_run).
  exact I.
Defined.

Lemma login_token_characterised_witness :
  login_token (Some (VDict [("accessToken"%string, VDict [("value"%string, VStr "fresh")])]))
  = Some (VStr "fresh").
Proof.
  apply (proj2 (login_token_characterised _ (VStr "fresh"))).
  exists [("accessToken"%string, VDict [("value"%string, VStr "fresh")])],
         [("value"%string, VStr "fresh")].
  repeat split; reflexivity.
Defined.

Lemma get_epg_channels_shape_witness :
  exists l, two_channels = VList l /\ l <> [] /\ forallb is_dict l = true.
Proof.
  apply (get_epg_channels_shape host_empty logged_in
           (snd (get_epg_channels host_empty logged_in)) two_channels).
  - reflexivity.
  - reflexivity.
Defined.

Lemma get_epg_program_shape_witness :
  (exists n, py_len (VList [VDict half_hour_program]) = Ret n /\ 0 < n) /\
  exists token date_str now d r cd rest,
    truthy token = true /\
    respond host_playable (ProgramBulkList token (VStr "x") date_str) now = Some (VDict d) /\
    lookup "result" d = Some (VDict r) /\
    lookup "data" r = Some (VList (VDict cd :: rest)) /\
    lookup "items" cd = Some (VList [VDict half_hour_program]).
Proof.
  apply (get_epg_program_shape host_playable (VStr "x") 0 logged_in
           (snd (get_epg_program host_playable (VStr "x") 0 logged_in))).
  - vm_compute. reflexivity.
  - reflexivity.
Defined.

Lemma find_program_returns_none_or_play_id_witness :
  VStr "p123" = VNone \/ truthy (VStr "p123") = true.
Proof.
  apply (find_program_returns_none_or_play_id host_playable (VStr "x") 1720002600 logged_in
           (snd (find_program_by_timestamp host_playable (VStr "x") 1720002600 logged_in))).
  vm_compute. reflexivity.
Defined.

Lemma listing_that_is_no_list_witness :
  scan_day (-1) (VDict [("error"%string, VStr "no data")]) 1720006200 = Ret Continue.
Proof.
  apply (proj1 (proj2 (listing_that_is_no_list (-1) 1720006200
                         ("error"%string, VStr "no data") [] "a"%char EmptyString))).
  discriminate.
Defined.

Lemma target_out_of_range_raises_witness :
  find_program_by_timestamp host_playable (VStr "x") 253402300000 logged_in
  = (Raise, logged_in).
Proof.
  apply (target_out_of_range_raises host_playable (VStr "x") 253402300000 logged_in).
  right. reflexivity.
Defined.

Lemma time_text_read_up_to_19_characters_witness :
  parse_time (VStr ("2024-07-03T11:30:00" ++ ".000+02:00"))
  = parse_time (VStr "2024-07-03T11:30:00").
Proof.
  apply (time_text_read_up_to_19_characters "2024-07-03T11:30:00" ".000+02:00").
  - reflexivity.
  - reflexivity.
Defined.

Lemma resolve_channel_sound_witness :
  exists d t,
    In (VDict d) channels_first_without_id /\
    dict_get d "title" (VStr "") = VStr t /\
    title_matches "primacool" t /\
    VStr "y" = dict_get d "id" (VStr "").
Proof.
  apply (resolve_channel_sound "primacool" channels_first_without_id (VStr "y")).
  - reflexivity.
  - reflexivity.
Defined.


Lemma url_without_marker_is_kept_witness :
  replace_lq "https://cdn.example/a.m3u8" = "https://cdn.example/a.m3u8"%string.
Proof.
  apply (proj1 (url_without_marker_is_kept "https://cdn.example/a.m3u8")).
  reflexivity.
Defined.


Lemma broken_stream_answer_is_an_error_witness :
  stream_of_response
    (Some (VDict (play_response (VList ([dash_entry] ++ VStr "HLS" :: [VDict hls_entry])))))
  = Error StreamRequestError.
Proof.
  apply (proj2 (broken_stream_answer_is_an_error
                  (play_response (VList ([dash_entry] ++ VStr "HLS" :: [VDict hls_entry])))
                  [dash_entry] [VDict hls_entry] (VStr "HLS"))); reflexivity.
Defined.

Lemma descriptor_comes_from_play_request_witness :
  exists token w1 channels w2 cid play_id w3,
    get_prima_token host_playable logged_in = (Ret token, w1) /\ truthy token = true /\
    get_epg_channels host_playable w1 = (Ret channels, w2) /\ truthy channels = true /\
    resolve_channel "primacool" channels = Ret cid /\ truthy cid = true /\
    find_program_by_timestamp host_playable cid 1720002600 w2 = (Ret play_id, w3) /\
    truthy play_id = true /\
    sent (snd (get_catchup_stream host_playable "primacool" 1720002600 logged_in))
    = (sent w3 ++ [Play token play_id])%list /\
    token_file (snd (get_catchup_stream host_playable "primacool" 1720002600 logged_in))
    = token_file w3 /\
    stream_of_response (respond host_playable (Play token play_id) (clock w3))
    = Descriptor "https://cdn.example/a.m3u8".
Proof.
  apply (descriptor_comes_from_play_request host_playable "primacool" 1720002600 logged_in).
  vm_compute. reflexivity.
Defined.

Lemma cnn_stream_is_first_entry_witness :
  cnn_stream_of_response (Some (VDict (play_response (VList [dash_entry; VDict hls_entry]))))
  = LiveStream "https://cdn.example/a.mpd" /\
  cnn_stream_of_response (Some (VDict (play_response (VList [])))) = LiveNone.
Proof.
  split.
  - apply (proj1 (cnn_stream_is_first_entry
                    (play_response (VList [dash_entry; VDict hls_entry])))
             [("type", VStr "DASH"); ("url", VStr "https://cdn.example/a_lq.mpd")]%string
             [VDict hls_entry] "https://cdn.example/a_lq.mpd"%string); reflexivity.
  - apply (proj1 (proj2 (cnn_stream_is_first_entry (play_response (VList []))))).
    right. exists (VList []). split; reflexivity.
Defined.

Lemma catchup_keys_have_a_relay_stream_witness :
  (exists c,
      hd_error ["love"; "prima love"]%string = Some c /\
      get_live_stream host_empty "primalove" first_run =
      (Ret (LiveStream ("http://p.6f.sk/iprima.php?ch=" ++ c)), first_run)) /\
  get_live_stream host_empty "love" first_run =
  (Ret (LiveStream "http://p.6f.sk/iprima.php?ch=love"), first_run).
Proof.
  split.
  - apply (proj1 (catchup_keys_have_a_relay_stream host_empty first_run "primalove")).
    + reflexivity.
    + discriminate.
  - apply (proj2 (catchup_keys_have_a_relay_stream host_empty first_run "love")).
    cbn. tauto.
Defined.

Lemma live_stream_is_relay_or_none_witness :
  first_run = first_run /\
  (LiveNone = LiveNone \/
   exists c,
     In c CHANNELS /\
     ("nova"%string = c \/ "nova"%string = ("prima" ++ c)%string) /\
     LiveNone = LiveStream ("http://p.6f.sk/iprima.php?ch=" ++ c)).
Proof.
  apply (live_stream_is_relay_or_none host_empty first_run first_run "nova" LiveNone).
  - discriminate.
  - discriminate.
  - reflexivity.
Defined.

Lemma empty_cached_token_blocks_login_witness :
  get_prima_token host_playable empty_token_cached = (Ret (VStr ""), empty_token_cached) /\
  get_catchup_stream host_playable "primacool" 1720002600 empty_token_cached
  = (Ret (Error LoginRequired), empty_token_cached).
Proof.
  apply (empty_cached_token_blocks_login host_playable "primacool" 1720002600
           empty_token_cached (VStr "") 1720020000).
  - reflexivity.
  - reflexivity.
  - reflexivity.
Defined.

Lemma search_without_token_finds_nothing_witness :
  (forall o, get_epg_program host_without_credentials (VStr "x") o expiring_now
             = (Ret VNone, expiring_now)) /\
  find_program_by_timestamp host_without_credentials (VStr "x") 1720002600 expiring_now
  = (Ret VNone, expiring_now).
Proof.
  apply (search_without_token_finds_nothing host_without_credentials (VStr "x")
           1720002600 expiring_now).
  - left. reflexivity.
  - right. exists [("token"%string, VStr "old"); ("valid_to"%string, VInt 1720000000)].
    split; [reflexivity|]. right. right.
    exists (VInt 1720000000). split; reflexivity.
  - reflexivity.
  - reflexivity.
Defined.

